(** * respite: the authorization gate, the access scope and the scoped
    repository, embedded in Rocq.

    Sources: [repo/dbscopes.go], [repo/base.go] and [repo/resources.go]
    (package [repo]); [common/constants.go] (package [common], the later
    layout of the same code); the two [Protected] gates in [api]
    ([unnamed/part_000] for [common], [unnamed/part_001] for [repo]).

    Go strings are byte strings: they are Rocq [string]s (lists of 8-bit
    [ascii]).  Go [int] is 64 bits wide: it is [Z] with the wrap-around
    written out by [wrap64].  A [uuid.UUID] is a 128-bit value: a [Z]. *)

From Stdlib Require Import ZArith Lia Ascii String.
From stdpp Require Import base gmap strings list.

Local Open Scope string_scope.
Local Open Scope Z_scope.

(* ------------------------------------------------------------------ *)
(** ** Machine integers *)

Definition INT_MIN : Z := - 2 ^ 63.
Definition INT_MAX : Z := 2 ^ 63 - 1.
Definition UINT64_MAX : Z := 2 ^ 64 - 1.

(** Two's-complement wrap-around of a 64-bit Go [int]. *)
Definition wrap64 (z : Z) : Z :=
  let m := z mod 2 ^ 64 in
  if m <? 2 ^ 63 then m else m - 2 ^ 64.

(** Go's [a * b] on [int]. *)
Definition imul (a b : Z) : Z := wrap64 (a * b).
(** Go's [a - b] on [int]. *)
Definition isub (a b : Z) : Z := wrap64 (a - b).

(* ------------------------------------------------------------------ *)
(** ** strconv.Atoi *)

Definition digit_of (c : ascii) : option Z :=
  let n := Ascii.nat_of_ascii c in
  if (48 <=? n)%nat && (n <=? 57)%nat then Some (Z.of_nat n - 48) else None.

(** The loop of the fast path of [Atoi] (strings shorter than 19 bytes):
    every byte must be a digit, no overflow is possible. *)
Fixpoint atoi_fast_digits (s : string) (n : Z) : option Z :=
  match s with
  | EmptyString => Some n
  | String c s' =>
      match digit_of c with
      | Some d => atoi_fast_digits s' (n * 10 + d)
      | None => None
      end
  end.

(** Result of [ParseUint(s, 10, 64)]: a value, a range error carrying the
    saturated value, or a syntax error. *)
Inductive ParseResult :=
| ParsedOk (n : Z)
| ParsedRange (n : Z)
| ParsedSyntax.

(** The loop of [ParseUint] for base 10, bit size 64: a non-digit is a
    syntax error, but an overflow is reported as soon as it happens, before
    the rest of the string is looked at. *)
Fixpoint parse_uint_loop (s : string) (n : Z) : ParseResult :=
  match s with
  | EmptyString => ParsedOk n
  | String c s' =>
      match digit_of c with
      | None => ParsedSyntax
      | Some d =>
          (* cutoff = maxUint64/10 + 1: n*10 overflows *)
          if UINT64_MAX / 10 + 1 <=? n then ParsedRange UINT64_MAX
          else if UINT64_MAX <? n * 10 + d then ParsedRange UINT64_MAX
          else parse_uint_loop s' (n * 10 + d)
      end
  end.

Definition ParseUint (s : string) : ParseResult :=
  match s with
  | EmptyString => ParsedSyntax
  | _ => parse_uint_loop s 0
  end.

(** [ParseInt(s, 10, 0)]: value and whether an error was reported. *)
Definition ParseInt (s : string) : Z * bool :=
  match s with
  | EmptyString => (0, true)
  | String c rest =>
      let '(neg, digits) :=
        if Ascii.eqb c "+"%char then (false, rest)
        else if Ascii.eqb c "-"%char then (true, rest)
        else (false, s) in
      let '(un, range) :=
        match ParseUint digits with
        | ParsedOk n => (Some n, false)
        | ParsedRange n => (Some n, true)
        | ParsedSyntax => (None, false)
        end in
      match un with
      | None => (0, true)
      | Some u =>
          if negb neg && (2 ^ 63 <=? u) then (2 ^ 63 - 1, true)
          else if neg && (2 ^ 63 <? u) then (- 2 ^ 63, true)
          else ((if neg then - u else u), range)
      end
  end.

(** [strconv.Atoi]; the callers ignore the error, so only the value is
    kept. *)
Definition Atoi (s : string) : Z :=
  let len := String.length s in
  if (0 <? len)%nat && (len <? 19)%nat then
    match s with
    | EmptyString => 0
    | String c rest =>
        let signed := Ascii.eqb c "-"%char || Ascii.eqb c "+"%char in
        let digits := if signed then rest else s in
        match digits with
        | EmptyString => 0
        | _ =>
            match atoi_fast_digits digits 0 with
            | None => 0
            | Some n => if Ascii.eqb c "-"%char then - n else n
            end
        end
    end
  else fst (ParseInt s).

(* ------------------------------------------------------------------ *)
(** ** Requests: the query string and the context *)

(** [url.Values]: each key maps to the list of its values. *)
Definition Values := gmap string (list string).

(** [url.Values.Get]: the first value, or [""]. *)
Definition Get (q : Values) (key : string) : string :=
  match q !! key with
  | Some (v :: _) => v
  | _ => ""%string
  end.

(** The package variables [MaxPageSize] and [MinPageSize], set once from
    the server configuration. *)
Record PageConfig := { MaxPageSize : Z; MinPageSize : Z }.

(** The defaults of [cfg.Server] (and of the package variables). *)
Definition default_config : PageConfig :=
  {| MaxPageSize := 500; MinPageSize := 10 |}.

Definition getPageSize (cfg : PageConfig) (query : Values) : Z :=
  let pageSize := Atoi (Get query "page_size") in
  if MaxPageSize cfg <? pageSize then MaxPageSize cfg
  else if pageSize <=? 0 then MinPageSize cfg
  else pageSize.

Definition getPage (query : Values) : Z :=
  let page := Atoi (Get query "page") in
  if page <=? 0 then 1 else page.

Definition getOffset (cfg : PageConfig) (query : Values) : Z :=
  imul (isub (getPage query) 1) (getPageSize cfg query).

(* ------------------------------------------------------------------ *)
(** ** Permissions *)

Definition ascii_lower (c : ascii) : ascii :=
  let n := Ascii.nat_of_ascii c in
  if (65 <=? n)%nat && (n <=? 90)%nat then Ascii.ascii_of_nat (n + 32) else c.

(** [strings.EqualFold].  Go folds under Unicode simple case folding; the
    resource names and permission tokens of this code are ASCII, on which
    that is ASCII case-insensitive equality, which is what is written here
    (bytes above 0x7f are compared as they are). *)
Fixpoint EqualFold (s t : string) : bool :=
  match s, t with
  | EmptyString, EmptyString => true
  | String a s', String b t' => Ascii.eqb (ascii_lower a) (ascii_lower b) && EqualFold s' t'
  | _, _ => false
  end.

(** [fmt.Sprintf("%s.%s", a, b)]. *)
Definition sprintf_dot (a b : string) : string := (a ++ "." ++ b)%string.

Definition GLOBAL : string := "global".
Definition READ : string := "read".
Definition WRITE : string := "write".

(** [havePermission] of package [api]. *)
Fixpoint havePermission (resource permission : string) (permissions : list string) : bool :=
  match permissions with
  | [] => false
  | currentPermission :: rest =>
      let resourcePermission := sprintf_dot resource permission in
      if EqualFold currentPermission resourcePermission then true
      else havePermission resource permission rest
  end.

(** [haveGlobalPermission] of packages [repo] and [common]. *)
Fixpoint haveGlobalPermission (resource : string) (permissions : list string) : bool :=
  match permissions with
  | [] => false
  | currentPermission :: rest =>
      let resourcePermission := sprintf_dot resource GLOBAL in
      if EqualFold currentPermission resourcePermission then true
      else haveGlobalPermission resource rest
  end.

(* ------------------------------------------------------------------ *)
(** ** Panics, errors, rows *)

(** A Go computation that returns or panics. *)
Inductive Go (A : Type) :=
| Ret (a : A)
| Panic (msg : string).
Arguments Ret {A} a.
Arguments Panic {A} msg.

Definition go_bind {A B} (m : Go A) (k : A -> Go B) : Go B :=
  match m with Ret a => k a | Panic msg => Panic msg end.

Notation "x <-- m ;;; k" := (go_bind m (fun x => k))
  (at level 100, m at next level, right associativity).

(** Errors returned as Go [error] values. *)
Inductive Err :=
| ErrRecordNotFound                  (** gorm.ErrRecordNotFound *)
| ErrUnrecognized (name : string)    (** "unrecognized resource name: %s" *)
| ErrMsg (msg : string).             (** any other error, by its message *)

(** A domain object (and a row of its table): the identifier of
    [basemodel.Base], the owner of a [LocalObject] ([None] for global types
    and for an unset owner), and the remaining columns. *)
Record Obj := { ID : Z; UserID : option Z; Payload : string }.

Definition obj_setUserID (o : Obj) (uid : Z) : Obj :=
  {| ID := ID o; UserID := Some uid; Payload := Payload o |}.

(* ------------------------------------------------------------------ *)
(** ** The query builder

    A [*gorm.DB] carries the scopes registered with [Scopes]; gorm runs
    them, in order, when a statement executes, and the statement is then
    evaluated as SQL: the WHERE conditions first, then OFFSET and LIMIT. *)

(** A WHERE condition: [Where("user_id = ?", v)], with [v] bound to NULL
    when it is a nil pointer. *)
Inductive Cond :=
| CondUserIDEq (v : option Z).

Record Query := { Conds : list Cond; QOffset : Z; QLimit : option Z }.

Definition empty_query : Query := {| Conds := []; QOffset := 0; QLimit := None |}.

Definition Scope := Query -> Go Query.

Record DB := { scopes : list Scope }.

(** [server.DB]: the connection, no scope registered. *)
Definition root_db : DB := {| scopes := [] |}.

(** [db.Scopes(fs...)]. *)
Definition Scopes (db : DB) (fs : list Scope) : DB := {| scopes := scopes db ++ fs |}.

Definition q_where (q : Query) (c : Cond) : Query :=
  {| Conds := Conds q ++ [c]; QOffset := QOffset q; QLimit := QLimit q |}.
Definition q_offset (q : Query) (o : Z) : Query :=
  {| Conds := Conds q; QOffset := o; QLimit := QLimit q |}.
Definition q_limit (q : Query) (l : Z) : Query :=
  {| Conds := Conds q; QOffset := QOffset q; QLimit := Some l |}.

Fixpoint run_scopes (fs : list Scope) (q : Query) : Go Query :=
  match fs with
  | [] => Ret q
  | f :: rest => q' <-- f q ;;; run_scopes rest q'
  end.

Definition build (db : DB) : Go Query := run_scopes (scopes db) empty_query.

(** SQL equality: a comparison with NULL is never true. *)
Definition sql_eq (a b : option Z) : bool :=
  match a, b with Some x, Some y => Z.eqb x y | _, _ => false end.

Definition cond_holds (r : Obj) (c : Cond) : bool :=
  match c with CondUserIDEq v => sql_eq (UserID r) v end.

Definition matching (q : Query) (tbl : list Obj) : list Obj :=
  List.filter (fun r => forallb (cond_holds r) (Conds q)) tbl.

(** gorm's [clause.Limit]: OFFSET is emitted only when positive, LIMIT only
    when non-negative. *)
Definition window (off : Z) (lim : option Z) (rows : list Obj) : list Obj :=
  let rows' := if 0 <? off then skipn (Z.to_nat off) rows else rows in
  match lim with
  | Some l => if 0 <=? l then firstn (Z.to_nat l) rows' else rows'
  | None => rows'
  end.

(** The rows a [Find] through [db] returns. *)
Definition find_rows (db : DB) (tbl : list Obj) : Go (list Obj) :=
  q <-- build db ;;; Ret (window (QOffset q) (QLimit q) (matching q tbl)).

(** The rows that pass the WHERE conditions of [db] (what a count and a
    lookup by primary key see). *)
Definition where_rows (db : DB) (tbl : list Obj) : Go (list Obj) :=
  q <-- build db ;;; Ret (matching q tbl).

(* ------------------------------------------------------------------ *)
(** ** The resource registry ([repo/resources.go]) *)

(** [Resource]: the type handle is the blank value [reflect.New] makes. *)
Record Resource := { Name : string; IsGlobalRes : bool; ResType : Obj }.

Definition Resources := gmap string Resource.

Definition Register (resources : Resources) (name : string) (isGlobal : bool) (blank : Obj) : Resources :=
  <[name := {| Name := name; IsGlobalRes := isGlobal; ResType := blank |}]> resources.

Definition IsGlobal (resources : Resources) (name : string) : bool :=
  match resources !! name with
  | Some r => IsGlobalRes r
  | None => false
  end.

Definition New (resources : Resources) (name : string) : option Obj * option Err :=
  match resources !! name with
  | Some r => (Some (ResType r), None)
  | None => (None, Some (ErrUnrecognized name))
  end.

(* ------------------------------------------------------------------ *)
(** ** Persistence of domain objects ([basemodel])

    Modelled from the spec: the [basemodel] package (the [Count],
    [FindAll], [FindByID], [Save], [Update] and [Delete] methods every
    domain object inherits) is not among the sources; §4.5 and §6 of the
    spec describe it: a count under the ownership predicate, the page
    window under the same predicate, a lookup by primary key under the
    ownership predicate that fails with [NotFound], an insert, a full-row
    update and a delete, any of which may fail with a persistence error. *)

(** The table of one resource, and the error the database reports on a
    write, if it reports one. *)
Record Store := { Rows : list Obj; WriteFailure : option Err }.

Definition set_rows (st : Store) (rows : list Obj) : Store :=
  {| Rows := rows; WriteFailure := WriteFailure st |}.

(** Modelled from the spec: [Count] under the ownership predicate. *)
Definition Count (db : DB) (st : Store) : Go (Z * option Err) :=
  rows <-- where_rows db (Rows st) ;;; Ret (Z.of_nat (length rows), None).

(** Modelled from the spec: [FindAll], the page window under the same
    predicate. *)
Definition FindAll (db : DB) (st : Store) : Go (list Obj * option Err) :=
  rows <-- find_rows db (Rows st) ;;; Ret (rows, None).

(** Modelled from the spec: [FindByID], load by primary key under the
    ownership predicate; [NotFound] when no row is visible. *)
Definition FindByID (db : DB) (st : Store) (uid : Z) : Go (option Obj * option Err) :=
  rows <-- where_rows db (Rows st) ;;;
  match List.find (fun r => Z.eqb (ID r) uid) rows with
  | Some r => Ret (Some r, None)
  | None => Ret (None, Some ErrRecordNotFound)
  end.

(** Modelled from the spec: [Save], an insert. *)
Definition Save (st : Store) (o : Obj) : option Err * Store :=
  match WriteFailure st with
  | Some e => (Some e, st)
  | None => (None, set_rows st (Rows st ++ [o]))
  end.


(** Modelled from the spec: [Delete]. *)
Definition DeleteRow (st : Store) (o : Obj) : option Err * Store :=
  match WriteFailure st with
  | Some e => (Some e, st)
  | None => (None, set_rows st (List.filter (fun r => negb (Z.eqb (ID r) (ID o))) (Rows st)))
  end.

(** [basemodel.List]. *)
Record List_ := { LCount : Z; LPageSize : Z; LPage : Z; LData : list Obj }.

(* ------------------------------------------------------------------ *)
(** ** Package [repo] ([repo/dbscopes.go], [repo/base.go]) *)

Module Repo.

Record DBScopes := {
  PageSize : Z; Page : Z; Offset : Z; UserID : option Z; Global : bool }.

Definition NewDBScopes (pageSize pageNumber offset : Z) (userID : option Z) (isGlobal : bool) : DBScopes :=
  {| PageSize := pageSize; Page := pageNumber; Offset := offset; UserID := userID; Global := isGlobal |}.

Definition Paginate (dbs : DBScopes) : Scope :=
  fun db => Ret (q_limit (q_offset db (Offset dbs)) (PageSize dbs)).

Definition Owned (dbs : DBScopes) : Scope :=
  fun db => if Global dbs then Ret db else Ret (q_where db (CondUserIDEq (UserID dbs))).

(** [Repository]; its [RequestID] is a fresh random UUID and plays no part
    here. *)
Record Repository := { RDB : DB; RDBScopes : DBScopes; RResources : Resources }.

Definition NewRepository (pageSize pageNumber offset : Z) (userID : option Z)
    (resourceName : string) (dataBase : DB) (resources : Resources)
    (currentUserPermissions : list string) : Repository :=
  let isGlobal := IsGlobal resources resourceName in
  let dbScopes := NewDBScopes pageSize pageNumber offset userID isGlobal in
  let requestDatabase := Scopes dataBase [Paginate dbScopes] in
  let requestDatabase :=
    if negb isGlobal && negb (haveGlobalPermission resourceName currentUserPermissions)
    then Scopes dataBase [Owned dbScopes; Paginate dbScopes]
    else requestDatabase in
  {| RDB := requestDatabase; RDBScopes := dbScopes; RResources := resources |}.

(** A value stored in a request's [context.Context] under one of the keys
    of type [contextKey] of this package (named by their string). *)
Inductive CtxValue :=
| CtxNil                          (** a nil interface value *)
| CtxString (s : string)
| CtxStrings (l : list string)
| CtxOther.                       (** a value of any other type *)

Definition Ctx := gmap string CtxValue.

Definition CURRENT_USER_ID : string := "currentUserID".
Definition CURRENT_USER_PERMISSIONS : string := "currentUserPermissions".

(** The parts of an [*http.Request] the repository reads: the query string
    of its URL and its context. *)
Record Request := { RQuery : Values; RCtx : Ctx }.

(** [getCurrentUserPermissions]: [nil] when the key is not set, the slice
    when it holds a [[]string], an empty slice otherwise. *)
Definition getCurrentUserPermissions (request : Request) : list string :=
  match RCtx request !! CURRENT_USER_PERMISSIONS with
  | None | Some CtxNil => []
  | Some (CtxStrings permissions) => permissions
  | Some _ => []
  end.

Section FromRequest.

(** [uuid.FromString] of gofrs/uuid: the identifier a text denotes, when it
    is a valid UUID text. *)
Variable FromString : string -> option Z.

(** [getCurrentUserID]: a nil pointer when the key is not set, does not
    hold a string, holds [""] or a text that is not a UUID. *)
Definition getCurrentUserID (request : Request) : option Z :=
  match RCtx request !! CURRENT_USER_ID with
  | None | Some CtxNil => None
  | Some (CtxString userID) => if String.eqb userID "" then None else FromString userID
  | Some _ => None
  end.

Definition NewDBScopesFromRequest (cfg : PageConfig) (request : Request) (isGlobal : bool) : DBScopes :=
  {| PageSize := getPageSize cfg (RQuery request);
     Page := getPage (RQuery request);
     Offset := getOffset cfg (RQuery request);
     UserID := getCurrentUserID request;
     Global := isGlobal |}.

(** [NewRepositoryFromRequest] (the debug log left out). *)
Definition NewRepositoryFromRequest (cfg : PageConfig) (request : Request) (dataBase : DB)
    (resourceName : string) (resources : Resources) : Repository :=
  let isGlobal := IsGlobal resources resourceName in
  let dbScopes := NewDBScopesFromRequest cfg request isGlobal in
  let currentUserPermissions := getCurrentUserPermissions request in
  NewRepository (PageSize dbScopes) (Page dbScopes) (Offset dbScopes) (UserID dbScopes)
    resourceName dataBase resources currentUserPermissions.

End FromRequest.

Section Crud.

(** The domain type's JSON decoding ([json.Unmarshal] into the blank
    object) and its [Validate] method: supplied by the caller. *)
Variable Unmarshal : string -> Obj -> Obj + Err.
Variable Validate : Obj -> option Err.

Definition GetAll (repository : Repository) (resourceName : string) (st : Store)
    : Go (option List_ * option Err) :=
  match New (RResources repository) resourceName with
  | (_, Some err) => Ret (None, Some err)
  | (None, None) => Ret (None, None)
  | (Some object, None) =>
      c <-- Count (RDB repository) st ;;;
      match c with
      | (_, Some err) => Ret (None, Some err)
      | (count, None) =>
          d <-- FindAll (RDB repository) st ;;;
          match d with
          | (_, Some err) => Ret (None, Some err)
          | (data, None) =>
              Ret (Some {| LCount := count; LPageSize := PageSize (RDBScopes repository);
                           LPage := Page (RDBScopes repository); LData := data |}, None)
          end
      end
  end.

Definition Get (repository : Repository) (resourceName : string) (uid : Z) (st : Store)
    : Go (option Obj * option Err) :=
  match New (RResources repository) resourceName with
  | (_, Some err) => Ret (None, Some err)
  | (None, None) => Ret (None, None)
  | (Some object, None) =>
      f <-- FindByID (RDB repository) st uid ;;;
      match f with
      | (_, Some err) => Ret (None, Some err)
      | (Some found, None) => Ret (Some found, None)
      | (None, None) => Ret (None, None)
      end
  end.

Definition Create (repository : Repository) (resourceName : string) (jsonObject : string) (st : Store)
    : (option Obj * option Err) * Store :=
  match New (RResources repository) resourceName with
  | (_, Some err) => ((None, Some err), st)
  | (None, None) => ((None, None), st)
  | (Some blank, None) =>
      match Unmarshal jsonObject blank with
      | inr err => ((None, Some err), st)
      | inl object =>
          let err := Validate object in
          match err with
          | Some _ => ((None, err), st)
          | None =>
              let owned :=
                if negb (Global (RDBScopes repository)) then
                  match UserID (RDBScopes repository) with
                  | None => None                          (* return nil, err *)
                  | Some ownerUUID => Some (obj_setUserID object ownerUUID)
                  end
                else Some object in
              match owned with
              | None => ((None, err), st)
              | Some object =>
                  match Save st object with
                  | (Some err, st') => ((None, Some err), st')
                  | (None, st') => ((Some object, None), st')
                  end
              end
          end
      end
  end.


(** [Delete]: the row is loaded by [uid] through the repository's
    database, then deleted. *)
Definition Delete (repository : Repository) (resourceName : string) (uid : Z) (st : Store)
    : Go (option Err * Store) :=
  match New (RResources repository) resourceName with
  | (_, Some err) => Ret (Some err, st)
  | (None, None) => Ret (None, st)
  | (Some object, None) =>
      f <-- FindByID (RDB repository) st uid ;;;
      match f with
      | (_, Some err) => Ret (Some err, st)
      | (Some found, None) =>
          let '(err, st') := DeleteRow st found in Ret (err, st')
      | (None, None) => Ret (None, st)   (* not produced by [FindByID] *)
      end
  end.

End Crud.

End Repo.

(* ------------------------------------------------------------------ *)
(** ** Package [common] ([common/constants.go]) *)

Module Common.

(** [domain.User], by its identifier. *)
Record User := { UID : Z }.

Record DBScopes := {
  PageSize : Z; Page : Z; Offset : Z; User_ : option User; Global : bool }.

Definition NewDBScopes (pageSize pageNumber offset : Z) (user : option User) (isGlobal : bool) : DBScopes :=
  {| PageSize := pageSize; Page := pageNumber; Offset := offset; User_ := user; Global := isGlobal |}.

Definition Paginate (dbs : DBScopes) : Scope :=
  fun db => Ret (q_limit (q_offset db (Offset dbs)) (PageSize dbs)).

(** [db.Where("user_id = ?", dbs.User.ID.String())]: reading the [ID] field
    through a nil [*domain.User] is a nil pointer dereference. *)
Definition Owned (dbs : DBScopes) : Scope :=
  fun db =>
    if Global dbs then Ret db
    else match User_ dbs with
         | Some u => Ret (q_where db (CondUserIDEq (Some (UID u))))
         | None => Panic "runtime error: invalid memory address or nil pointer dereference"
         end.

(** [RequestContext] (the fresh random [RequestID] plays no part here). *)
Record RequestContext := {
  RDB : DB; RDBScopes : DBScopes; RResource : Resource; RResources : Resources }.

Definition NewRequestContextWithDetails (pageSize pageNumber offset : Z) (user : option User)
    (resource : Resource) (dataBase : DB) (resources : Resources)
    (currentUserPermissions : list string) : RequestContext :=
  let isGlobal := IsGlobal resources (Name resource) in
  let dbScopes := NewDBScopes pageSize pageNumber offset user isGlobal in
  let requestDatabase := Scopes dataBase [Paginate dbScopes] in
  let requestDatabase :=
    if negb isGlobal && negb (haveGlobalPermission (Name resource) currentUserPermissions)
    then Scopes dataBase [Owned dbScopes; Paginate dbScopes]
    else requestDatabase in
  {| RDB := requestDatabase; RDBScopes := dbScopes; RResource := resource; RResources := resources |}.

Section Crud.

Variable Unmarshal : string -> Obj -> Obj + Err.
Variable Validate : Obj -> option Err.

Definition GetAll (requestContext : RequestContext) (st : Store) : Go (option List_ * option Err) :=
  match New (RResources requestContext) (Name (RResource requestContext)) with
  | (_, Some err) => Ret (None, Some err)
  | (None, None) => Ret (None, None)
  | (Some object, None) =>
      c <-- Count (RDB requestContext) st ;;;
      match c with
      | (_, Some err) => Ret (None, Some err)
      | (count, None) =>
          d <-- FindAll (RDB requestContext) st ;;;
          match d with
          | (_, Some err) => Ret (None, Some err)
          | (data, None) =>
              Ret (Some {| LCount := count; LPageSize := PageSize (RDBScopes requestContext);
                           LPage := Page (RDBScopes requestContext); LData := data |}, None)
          end
      end
  end.

Definition Get (requestContext : RequestContext) (uid : Z) (st : Store) : Go (option Obj * option Err) :=
  match New (RResources requestContext) (Name (RResource requestContext)) with
  | (_, Some err) => Ret (None, Some err)
  | (None, None) => Ret (None, None)
  | (Some object, None) =>
      f <-- FindByID (RDB requestContext) st uid ;;;
      match f with
      | (_, Some err) => Ret (None, Some err)
      | (Some found, None) => Ret (Some found, None)
      | (None, None) => Ret (None, None)
      end
  end.

Definition Create (requestContext : RequestContext) (jsonObject : string) (st : Store)
    : (option Obj * option Err) * Store :=
  match New (RResources requestContext) (Name (RResource requestContext)) with
  | (_, Some err) => ((None, Some err), st)
  | (None, None) => ((None, None), st)
  | (Some blank, None) =>
      match Unmarshal jsonObject blank with
      | inr err => ((None, Some err), st)
      | inl object =>
          let err := Validate object in
          match err with
          | Some _ => ((None, err), st)
          | None =>
              let owned :=
                if negb (Global (RDBScopes requestContext)) then
                  match User_ (RDBScopes requestContext) with
                  | None => None                          (* return nil, err *)
                  | Some ownerUser => Some (obj_setUserID object (UID ownerUser))
                  end
                else Some object in
              match owned with
              | None => ((None, err), st)
              | Some object =>
                  match Save st object with
                  | (Some err, st') => ((None, Some err), st')
                  | (None, st') => ((Some object, None), st')
                  end
              end
          end
      end
  end.

End Crud.

End Common.

(* ------------------------------------------------------------------ *)
(** ** Error responses ([ERROR], [JSON]) *)

(** [err.Error()]. *)
Definition Error (e : Err) : string :=
  match e with
  | ErrRecordNotFound => "record not found"
  | ErrUnrecognized name => "unrecognized resource name: " ++ name
  | ErrMsg msg => msg
  end.

Definition chr (n : nat) : string := String (Ascii.ascii_of_nat n) EmptyString.
Definition dq : string := chr 34.
Definition hex_digit (n : nat) : string := String.substring n 1 "0123456789abcdef".

(** One byte of a string as [encoding/json] writes it (HTML escaping on, as
    with [json.NewEncoder]); bytes from 0x80 up are written as they are,
    the messages being valid UTF-8. *)
Definition json_escape_byte (c : ascii) : string :=
  let n := Ascii.nat_of_ascii c in
  if (n =? 34)%nat then "\" ++ dq
  else if (n =? 92)%nat then "\\"
  else if (n =? 10)%nat then "\n"
  else if (n =? 13)%nat then "\r"
  else if (n =? 9)%nat then "\t"
  else if (n <? 32)%nat || (n =? 60)%nat || (n =? 62)%nat || (n =? 38)%nat then
    "\u00" ++ hex_digit (n / 16) ++ hex_digit (n mod 16)
  else String c EmptyString.

Fixpoint json_escape (s : string) : string :=
  match s with
  | EmptyString => EmptyString
  | String c s' => json_escape_byte c ++ json_escape s'
  end.

(** The body [ERROR(w, status, err)] writes: [json.Encoder.Encode] of the
    struct with the single field [error], then the encoder's newline. *)
Definition error_body (msg : string) : string :=
  "{" ++ dq ++ "error" ++ dq ++ ":" ++ dq ++ json_escape msg ++ dq ++ "}" ++ chr 10.

Definition StatusUnauthorized : Z := 401.

(* ------------------------------------------------------------------ *)
(** ** The authorization gate ([Server.Protected]) *)

(** [basemodel.User], the local user record: its identifier and the
    profile attributes taken from the token. *)
Record UserRec := { UserRecID : Z; Profile : string }.

(** The external identity provider ([auth.Client]), for the token of this
    request. *)
Record AuthClient := {
  RetrospectToken : string -> option Err;
  GetUserFromToken : string -> UserRec + Err;
  GetRolesFromToken : string -> list string * option Err }.

(** The persisted local users; the errors the database reports on a read
    and on a write, if it reports one. *)
Record UserDB := {
  Users : gmap Z UserRec; UserReadFailure : option Err; UserWriteFailure : option Err }.

(** [DBLoadUser] ([uuid.FromString] of a [uuid.String()] always succeeds);
    modelled from the spec: [FindByID] reports [NotFound] on a missing
    record. *)
Definition DBLoadUser (udb : UserDB) (uid : Z) : option UserRec * option Err :=
  match UserReadFailure udb with
  | Some e => (None, Some e)
  | None =>
      match Users udb !! uid with
      | Some u => (Some u, None)
      | None => (None, Some ErrRecordNotFound)
      end
  end.

(** [DBSaveUser]; modelled from the spec: [Save] inserts the record. *)
Definition DBSaveUser (udb : UserDB) (u : UserRec) : option Err * UserDB :=
  match UserWriteFailure udb with
  | Some e => (Some e, udb)
  | None =>
      (None, {| Users := <[UserRecID u := u]> (Users udb);
                UserReadFailure := UserReadFailure udb;
                UserWriteFailure := UserWriteFailure udb |})
  end.

(** What the gate does that is observable: the insert of a local user, the
    construction of the request context (the scoped repository), the call
    of the wrapped handler. *)
Inductive Event :=
| EvSaveUser (u : UserRec)
| EvNewRequestContext
| EvNext.

Inductive Outcome :=
| Rejected (status : Z) (body : string)   (** the response the gate writes *)
| Forwarded.                              (** [next] was called *)

(** The server fields the gate reads. *)
Record Server := { AuthClient_ : AuthClient; RoleToPermissions : gmap string (list string) }.

(** [strings.ToLower] (ASCII letters; see [EqualFold]). *)
Fixpoint ToLower (s : string) : string :=
  match s with
  | EmptyString => EmptyString
  | String c s' => String (ascii_lower c) (ToLower s')
  end.

Definition is_space (c : ascii) : bool :=
  let n := Ascii.nat_of_ascii c in
  (n =? 32)%nat || ((9 <=? n)%nat && (n <=? 13)%nat).

Fixpoint trim_left (s : string) : string :=
  match s with
  | String c s' => if is_space c then trim_left s' else s
  | EmptyString => EmptyString
  end.

(** [strings.TrimSpace] (ASCII white space). *)
Definition TrimSpace (s : string) : string :=
  String.rev (trim_left (String.rev (trim_left s))).

(** [permissions = append(permissions, server.RoleToPermissions[role]...)]
    over the roles; a role without entry contributes nothing. *)
Definition expand_roles (m : gmap string (list string)) (roles : list string) : list string :=
  List.concat (List.map (fun role => default [] (m !! role)) roles).

Definition reject (msg : string) : Outcome := Rejected StatusUnauthorized (error_body msg).

(** Steps shared by both versions of [Protected], up to the permission
    list: the outcome when the gate stops, or the loaded user and the
    permissions; the user store after, and the events so far. *)
Definition authenticate (server : Server) (authHeader : string) (udb : UserDB)
    : (Outcome + (UserRec * list string)) * UserDB * list Event :=
  if (String.length authHeader <? 7)%nat then
    (inl (reject "unauthorized, missing bearer authorization header"), udb, [])
  else
  let authType := ToLower (String.substring 0 6 authHeader) in
  if negb (String.eqb authType "bearer") then
    (inl (reject "unauthorized, invalid bearer authorization header"), udb, [])
  else
  let tokenString := TrimSpace (String.substring 7 (String.length authHeader - 7) authHeader) in
  let ac := AuthClient_ server in
  match RetrospectToken ac tokenString with
  | Some err => (inl (reject (Error err)), udb, [])
  | None =>
  match GetUserFromToken ac tokenString with
  | inr err => (inl (reject (Error err)), udb, [])
  | inl userFromInfo =>
  (* the error of the first load is ignored *)
  let '(udb, saved, evs) :=
    match fst (DBLoadUser udb (UserRecID userFromInfo)) with
    | Some _ => (udb, None, [])
    | None =>
        let '(e, udb') := DBSaveUser udb userFromInfo in
        (udb', e, match e with None => [EvSaveUser userFromInfo] | Some _ => [] end)
    end in
  match saved with
  | Some err => (inl (reject (Error err)), udb, evs)
  | None =>
  match DBLoadUser udb (UserRecID userFromInfo) with
  | (_, Some err) => (inl (reject (Error err)), udb, evs)
  | (None, None) => (inl (reject ""), udb, evs)   (* not produced by [DBLoadUser] *)
  | (Some loadedUser, None) =>
  match GetRolesFromToken ac tokenString with
  | (_, Some err) => (inl (reject (Error err)), udb, evs)
  | (roles, None) =>
      (inr (loadedUser, expand_roles (RoleToPermissions server) roles), udb, evs)
  end
  end
  end
  end
  end.

(** [Protected] of [unnamed/part_000] (package [common]): the request
    context is built before the permission check. *)
Definition Protected_common (server : Server) (permission : string) (resource : Resource)
    (authHeader : string) (udb : UserDB) : Outcome * UserDB * list Event :=
  match authenticate server authHeader udb with
  | (inl out, udb', evs) => (out, udb', evs)
  | (inr (_, permissions), udb', evs) =>
      let evs := app evs [EvNewRequestContext] in
      if havePermission (Name resource) permission permissions then (Forwarded, udb', app evs [EvNext])
      else (reject ("unauthorized, no permission for " ++ sprintf_dot (Name resource) permission),
            udb', evs)
  end.

(** [Protected] of [unnamed/part_001] (package [repo]): the handler builds
    the repository itself. *)
Definition Protected_repo (server : Server) (permission : string) (resource : Resource)
    (authHeader : string) (udb : UserDB) : Outcome * UserDB * list Event :=
  match authenticate server authHeader udb with
  | (inl out, udb', evs) => (out, udb', evs)
  | (inr (_, permissions), udb', evs) =>
      if havePermission (Name resource) permission permissions then (Forwarded, udb', app evs [EvNext])
      else (reject ("unauthorized, no permission for " ++ sprintf_dot (Name resource) permission),
            udb', evs)
  end.

(** The request [Protected] of [unnamed/part_001] hands to [next]: the
    incoming request whose context gets [CURRENT_USER_ID] set to
    [loadedUser.ID.String()] ([UUIDString]); the permission list is not
    stored in it.  [None] when the gate rejects. *)
Definition Protected_repo_next (UUIDString : Z -> string) (server : Server) (permission : string)
    (resource : Resource) (authHeader : string) (udb : UserDB) (r : Repo.Request)
    : option Repo.Request :=
  match authenticate server authHeader udb with
  | (inl _, _, _) => None
  | (inr (loadedUser, permissions), _, _) =>
      if havePermission (Name resource) permission permissions then
        Some {| Repo.RQuery := Repo.RQuery r;
                Repo.RCtx := <[Repo.CURRENT_USER_ID := Repo.CtxString (UUIDString (UserRecID loadedUser))]>
                               (Repo.RCtx r) |}
      else None
  end.

(* ------------------------------------------------------------------ *)
(** ** The resource registry at start-up ([Names], [initResourceFactory]) *)

(** [Resources.Names]: the keys of the map.  Go iterates a map in an
    unspecified order; the order here is that of [map_to_list], and only
    order-independent facts are stated about it. *)
Definition Names (resources : Resources) : list string := (map_to_list resources).*1.

(** A domain object as [Register] reads it: [ResourceName()], [IsGlobal()]
    and its type (the blank value). *)
Record ModelObject := { MResourceName : string; MIsGlobal : bool; MBlank : Obj }.

Definition RegisterObject (resources : Resources) (object : ModelObject) : Resources :=
  Register resources (MResourceName object) (MIsGlobal object) (MBlank object).

(** [initResourceFactory]: an empty registry, the built-in user resource,
    then the model objects in order. *)
Definition initResourceFactory (user : ModelObject) (modelObjects : list ModelObject) : Resources :=
  fold_left RegisterObject modelObjects (RegisterObject ∅ user).

(* ------------------------------------------------------------------ *)
(** ** [ERROR] *)


(* ------------------------------------------------------------------ *)
(** ** The router ([initRouter] of [api/server.go], package [common])

    gorilla/mux tries the routes in the order they were registered; a
    route whose path matches but whose methods do not is remembered as a
    method mismatch and the search goes on; the first route matching both
    serves the request; with none, a remembered mismatch gives 405 and
    otherwise 404.  A path template [/a/b] matches exactly that path; a
    template [/a/b/{id}] matches [/a/b/] followed by a non-empty segment
    without [/] (mux's default [[^/]+]); [PathPrefix(p)] matches every path
    starting with [p].  Request paths are taken as mux sees them after
    cleaning, the API path and the resource names as literal text. *)

Inductive Op := OpCreate | OpGetAll | OpGet | OpUpdate | OpDelete.

Inductive Handler :=
| HHome
| HStatic
| HHealth
| HProtected (permission : string) (resourceName : string) (op : Op).

Inductive Matcher :=
| MPath (path : string)
| MPathID (prefix : string)       (** the template [prefix ++ "{id}"] *)
| MPrefix (prefix : string).

Record Route := { RMatcher : Matcher; RMethods : option (list string); RHandler : Handler }.

Definition MethodGet : string := "GET".
Definition MethodPost : string := "POST".
Definition MethodPut : string := "PUT".
Definition MethodDelete : string := "DELETE".

(** The five routes the loop of [initRouter] registers for one resource. *)
Definition routes_of_resource (APIPath : string) (resource : Resource) : list Route :=
  let apiResPath := "/" ++ APIPath ++ "/" ++ Name resource in
  let apiResIDPath := apiResPath ++ "/" in
  [ {| RMatcher := MPath apiResPath; RMethods := Some [MethodPost];
       RHandler := HProtected WRITE (Name resource) OpCreate |};
    {| RMatcher := MPath apiResPath; RMethods := Some [MethodGet];
       RHandler := HProtected READ (Name resource) OpGetAll |};
    {| RMatcher := MPathID apiResIDPath; RMethods := Some [MethodGet];
       RHandler := HProtected READ (Name resource) OpGet |};
    {| RMatcher := MPathID apiResIDPath; RMethods := Some [MethodPut];
       RHandler := HProtected WRITE (Name resource) OpUpdate |};
    {| RMatcher := MPathID apiResIDPath; RMethods := Some [MethodDelete];
       RHandler := HProtected WRITE (Name resource) OpDelete |} ].

(** [initRouter]; [resources] lists the registered resources in the order
    the range over the map visits them. *)
Definition initRouter (APIPath : string) (resources : list Resource) : list Route :=
  {| RMatcher := MPath ("/" ++ APIPath ++ "/"); RMethods := Some [MethodGet]; RHandler := HHome |}
  :: app (List.concat (List.map (routes_of_resource APIPath) resources))
         [ {| RMatcher := MPrefix "/"; RMethods := None; RHandler := HStatic |};
           {| RMatcher := MPath "/healthz"; RMethods := Some [MethodGet]; RHandler := HHealth |} ].

Fixpoint strip_prefix (p s : string) : option string :=
  match p, s with
  | EmptyString, _ => Some s
  | String a p', String b s' => if Ascii.eqb a b then strip_prefix p' s' else None
  | _, _ => None
  end.

Fixpoint has_slash (s : string) : bool :=
  match s with
  | EmptyString => false
  | String c s' => Ascii.eqb c "/"%char || has_slash s'
  end.

Definition path_matches (m : Matcher) (path : string) : bool :=
  match m with
  | MPath p => String.eqb p path
  | MPathID p =>
      match strip_prefix p path with
      | Some seg => negb (String.eqb seg "") && negb (has_slash seg)
      | None => false
      end
  | MPrefix p => String.prefix p path
  end.

Definition method_matches (methods : option (list string)) (method : string) : bool :=
  match methods with
  | None => true
  | Some ms => existsb (String.eqb method) ms
  end.

Inductive Dispatch := Dispatched (h : Handler) | MethodNotAllowed | NotFound.

Fixpoint dispatch_from (routes : list Route) (method path : string) (mismatch : bool) : Dispatch :=
  match routes with
  | [] => if mismatch then MethodNotAllowed else NotFound
  | r :: rest =>
      if path_matches (RMatcher r) path then
        if method_matches (RMethods r) method then Dispatched (RHandler r)
        else dispatch_from rest method path true
      else dispatch_from rest method path mismatch
  end.

(** [Router.Match] for a request with [method] and [path]. *)
Definition dispatch (routes : list Route) (method path : string) : Dispatch :=
  dispatch_from routes method path false.

(* ================================================================== *)
(** * Properties *)

(** A registry with one non-global resource, [order], and its table. *)
Definition blank_obj : Obj := {| ID := 0; UserID := None; Payload := "" |}.
Definition order_resource : Resource := {| Name := "order"; IsGlobalRes := false; ResType := blank_obj |}.
Definition sample_resources : Resources := Register ∅ "order" false blank_obj.
Definition sample_store : Store :=
  {| Rows := [{| ID := 1; UserID := Some 100; Payload := "a" |}]; WriteFailure := None |}.

(** A row is owned by [uid] when its [user_id] equals it in SQL. *)
Definition owned_by (uid : option Z) (r : Obj) : bool := sql_eq (UserID r) uid.

Definition nil_deref : string := "runtime error: invalid memory address or nil pointer dereference".

(** The decoding of the examples: the body leaves the blank object as it
    is, and validation accepts it. *)
Definition keep_blank (_ : string) (o : Obj) : Obj + Err := inl o.
Definition accept (_ : Obj) : option Err := None.

Definition anonymous_order_repository : Repo.Repository :=
  Repo.NewRepository 10 1 0 None "order" root_db sample_resources [].

(** A string without any decimal digit. *)
Fixpoint no_digits (s : string) : bool :=
  match s with
  | EmptyString => true
  | String c s' => match digit_of c with Some _ => false | None => no_digits s' end
  end.

Definition page_size_5 : Values := <["page_size" := ["5"]]> ∅.

Definition huge_page_query : Values :=
  <["page" := ["4611686018427387905"]]> (<["page_size" := ["500"]]> ∅).




Definition owner_order_repository : Repo.Repository :=
  Repo.NewRepository 10 1 0 (Some 100) "order" root_db sample_resources [].

Definition missing_header_msg : string := "unauthorized, missing bearer authorization header".
Definition invalid_header_msg : string := "unauthorized, invalid bearer authorization header".

Ltac six_chars p :=
  do 6 (let c := fresh "c" in destruct p as [|c p]; [discriminate|]);
  destruct p; [|discriminate].

(** A provider that accepts every token, for the user 7 with the role
    [Customer]; the role table of the scenario of the spec. *)
Definition user7 : UserRec := {| UserRecID := 7; Profile := "alice" |}.

Definition customer_client : AuthClient := {|
  RetrospectToken := fun _ => None;
  GetUserFromToken := fun _ => inl user7;
  GetRolesFromToken := fun _ => (["Customer"], None) |}.

Definition customer_server : Server := {|
  AuthClient_ := customer_client;
  RoleToPermissions := <["Customer" := ["order.read"]]> ∅ |}.

Definition empty_users : UserDB :=
  {| Users := ∅; UserReadFailure := None; UserWriteFailure := None |}.





(** A decimal numeral: a string of ASCII digits, and its value. *)
Fixpoint all_digits (s : string) : bool :=
  match s with
  | EmptyString => true
  | String c s' => match digit_of c with Some _ => all_digits s' | None => false end
  end.

Fixpoint dec_value (s : string) (acc : Z) : Z :=
  match s with
  | EmptyString => acc
  | String c s' => dec_value s' (acc * 10 + default 0 (digit_of c))
  end.





(** The resource [Register] records for a model object. *)
Definition resource_of (object : ModelObject) : Resource :=
  {| Name := MResourceName object; IsGlobalRes := MIsGlobal object; ResType := MBlank object |}.

(** The registry of the examples: the built-in user, then [order]. *)
Definition user_object : ModelObject := {| MResourceName := "user"; MIsGlobal := false; MBlank := blank_obj |}.
Definition order_object : ModelObject := {| MResourceName := "order"; MIsGlobal := false; MBlank := blank_obj |}.
Definition global_order_object : ModelObject :=
  {| MResourceName := "order"; MIsGlobal := true; MBlank := blank_obj |}.

(** Three orders of two owners. *)
Definition two_owner_store : Store :=
  {| Rows := [{| ID := 1; UserID := Some 100; Payload := "a" |};
              {| ID := 2; UserID := Some 200; Payload := "b" |};
              {| ID := 3; UserID := Some 100; Payload := "c" |}];
     WriteFailure := None |}.

(** A role table that grants [order.global] besides [order.read]. *)
Definition global_customer_server : Server := {|
  AuthClient_ := customer_client;
  RoleToPermissions := <["Customer" := ["order.read"; "order.global"]]> ∅ |}.

(** A request as [loggerMiddleware] passes it on: no user, no permissions. *)
Definition plain_request : Repo.Request := {| Repo.RQuery := ∅; Repo.RCtx := ∅ |}.

(** A UUID text codec of the examples: decimal digits. *)
Fixpoint digits_of_nat (fuel n : nat) (acc : string) : string :=
  match fuel with
  | O => acc
  | S fuel' =>
      let acc' := String (Ascii.ascii_of_nat (48 + n mod 10)) acc in
      if (n <? 10)%nat then acc' else digits_of_nat fuel' (n / 10) acc'
  end.
Definition uuid_text (z : Z) : string := digits_of_nat 40 (Z.to_nat z) "".
Definition uuid_parse (s : string) : option Z :=
  if all_digits s && negb (String.eqb s "") then Some (dec_value s 0) else None.

Definition page_3_of_20 : Values := <["page" := ["3"]]> (<["page_size" := ["20"]]> ∅).

Lemma filter_all_true (tbl : list Obj) :
  List.filter (fun _ => true) tbl = tbl.
Proof. induction tbl as [|r tbl IH]; simpl; congruence. Qed.

Lemma filter_owned (uid : option Z) (tbl : list Obj) :
  List.filter (fun r => sql_eq (UserID r) uid && true) tbl
  = List.filter (owned_by uid) tbl.
Proof.
  induction tbl as [|r tbl IH]; simpl; [reflexivity|].
  unfold owned_by. rewrite andb_true_r. now rewrite IH.
Qed.

(** C10: the dedicated check of the [global] modifier is the general
    permission check at the action [global]: both compare each permission
    case-insensitively with ["<resource>.global"]. *)
Theorem haveGlobalPermission_is_havePermission_global (resource : string) (permissions : list string) :
  haveGlobalPermission resource permissions = havePermission resource GLOBAL permissions.
Proof.
  induction permissions as [|p ps IH]; simpl; [reflexivity|].
  now rewrite IH.
Qed.

(** C1: the rows a request-scoped repository sees.  A global resource is
    never filtered by owner; a non-global one is filtered to the rows whose
    [user_id] equals the caller's identity, unless a permission matches
    ["<resource>.global"] case-insensitively, in which case the rows seen
    are exactly those of the unfiltered table (under the same page
    window). *)
Theorem NewRepository_ownership_scope (pageSize pageNumber offset : Z) (userID : option Z)
    (resourceName : string) (resources : Resources) (permissions : list string) (tbl : list Obj) :
  let repository := Repo.NewRepository pageSize pageNumber offset userID resourceName
                      root_db resources permissions in
  (IsGlobal resources resourceName = true ->
     where_rows (Repo.RDB repository) tbl = Ret tbl /\
     find_rows (Repo.RDB repository) tbl = Ret (window offset (Some pageSize) tbl)) /\
  (IsGlobal resources resourceName = false ->
   haveGlobalPermission resourceName permissions = false ->
     where_rows (Repo.RDB repository) tbl = Ret (List.filter (owned_by userID) tbl) /\
     find_rows (Repo.RDB repository) tbl
       = Ret (window offset (Some pageSize) (List.filter (owned_by userID) tbl))) /\
  (IsGlobal resources resourceName = false ->
   haveGlobalPermission resourceName permissions = true ->
     where_rows (Repo.RDB repository) tbl = Ret tbl /\
     find_rows (Repo.RDB repository) tbl = Ret (window offset (Some pageSize) tbl)).
Proof.
  cbv zeta. unfold Repo.NewRepository.
  split; [|split]; intros Hg; [|intros Hp|intros Hp]; rewrite Hg; try rewrite Hp; simpl;
    unfold where_rows, find_rows, build, matching; simpl;
    first [ rewrite filter_owned | rewrite filter_all_true ]; auto.
Qed.

(** A caller holding [ORDER.Global] (any case) sees the unfiltered table. *)
Lemma NewRepository_ownership_scope_witness :
  IsGlobal sample_resources "order" = false /\
  haveGlobalPermission "order" ["ORDER.Global"] = true /\
  find_rows (Repo.RDB (Repo.NewRepository 10 1 0 (Some 200) "order" root_db sample_resources
                         ["ORDER.Global"])) (Rows sample_store)
    = Ret (window 0 (Some 10) (Rows sample_store)).
Proof.
  split; [reflexivity|]. split; [reflexivity|].
  apply (proj2 (proj2 (proj2 (NewRepository_ownership_scope 10 1 0 (Some 200) "order"
                                sample_resources ["ORDER.Global"] (Rows sample_store)))
                  eq_refl eq_refl)).
Defined.

Lemma filter_owned_none (tbl : list Obj) : List.filter (owned_by None) tbl = [].
Proof.
  induction tbl as [|r tbl IH]; simpl; [reflexivity|].
  unfold owned_by at 1. destruct (UserID r); simpl; exact IH.
Qed.

(** In package [repo], a caller without identity and without the global
    permission, on a non-global resource, lists nothing and gets
    [NotFound] on a direct read: the condition [user_id = NULL] matches
    no row. *)
Lemma repo_anonymous_sees_nothing (pageSize pageNumber offset : Z) (resourceName : string)
    (resources : Resources) (r : Resource) (permissions : list string) (st : Store) :
  resources !! resourceName = Some r ->
  IsGlobalRes r = false ->
  haveGlobalPermission resourceName permissions = false ->
  let repository := Repo.NewRepository pageSize pageNumber offset None resourceName
                      root_db resources permissions in
  Repo.GetAll repository resourceName st
    = Ret (Some {| LCount := 0; LPageSize := pageSize; LPage := pageNumber; LData := [] |}, None) /\
  (forall uid, Repo.Get repository resourceName uid st = Ret (None, Some ErrRecordNotFound)).
Proof.
  intros Hr Hg Hp. cbv zeta.
  assert (HG : IsGlobal resources resourceName = false) by (unfold IsGlobal; now rewrite Hr).
  pose proof (proj1 (proj2 (NewRepository_ownership_scope pageSize pageNumber offset None
                                resourceName resources permissions (Rows st))) HG Hp) as [Hw Hf].
  rewrite filter_owned_none in Hw, Hf.
  unfold Repo.GetAll, Repo.Get, Count, FindAll, FindByID. simpl Repo.RResources.
  unfold New. rewrite Hr. rewrite Hw, Hf. simpl.
  unfold window. split; [|reflexivity].
  destruct (0 <? offset), (0 <=? pageSize); simpl; rewrite ?skipn_nil, ?firstn_nil; reflexivity.
Qed.

(** C3 (the defect): in package [common], the same caller (no user in the
    request context) on the non-global [order] resource, without the
    global permission: listing and reading panic with a nil pointer
    dereference in [DBScopes.Owned] instead of returning nothing. *)
Theorem common_anonymous_owned_scope_panics :
  Common.GetAll (Common.NewRequestContextWithDetails 10 1 0 None order_resource root_db
                   sample_resources []) sample_store = Panic nil_deref /\
  Common.Get (Common.NewRequestContextWithDetails 10 1 0 None order_resource root_db
                sample_resources []) 1 sample_store = Panic nil_deref.
Proof. split; vm_compute; reflexivity. Qed.

(** When an identity is available, [Create] on a non-global resource
    stamps it as the owner of the object it saves. *)
Lemma Repo_Create_stamps_owner (Unmarshal : string -> Obj -> Obj + Err) (Validate : Obj -> option Err)
    (repository : Repo.Repository) (resourceName jsonObject : string) (st : Store)
    (blank object : Obj) (owner : Z) :
  New (Repo.RResources repository) resourceName = (Some blank, None) ->
  Unmarshal jsonObject blank = inl object -> Validate object = None ->
  Repo.Global (Repo.RDBScopes repository) = false ->
  Repo.UserID (Repo.RDBScopes repository) = Some owner ->
  Repo.Create Unmarshal Validate repository resourceName jsonObject st
    = (let '(e, st') := Save st (obj_setUserID object owner) in
       match e with
       | Some err => ((None, Some err), st')
       | None => ((Some (obj_setUserID object owner), None), st')
       end).
Proof.
  intros HN HU HV HG HO. unfold Repo.Create.
  rewrite HN, HU, HV, HG, HO. simpl.
  destruct (Save st (obj_setUserID object owner)) as [[e|] st']; reflexivity.
Qed.

(** The same defect in package [common]. *)
Lemma Common_Create_without_owner (Unmarshal : string -> Obj -> Obj + Err) (Validate : Obj -> option Err)
    (requestContext : Common.RequestContext) (jsonObject : string) (st : Store) (blank object : Obj) :
  New (Common.RResources requestContext) (Name (Common.RResource requestContext)) = (Some blank, None) ->
  Unmarshal jsonObject blank = inl object -> Validate object = None ->
  Common.Global (Common.RDBScopes requestContext) = false ->
  Common.User_ (Common.RDBScopes requestContext) = None ->
  Common.Create Unmarshal Validate requestContext jsonObject st = ((None, None), st).
Proof.
  intros HN HU HV HG HO. unfold Common.Create.
  rewrite HN, HU, HV, HG, HO. reflexivity.
Qed.

(** C4 (the defect): [Create] on a non-global resource without an owner
    returns [nil, err] where [err] is the (nil) result of [Validate]: no
    object and no error, and nothing is saved. *)
Theorem Create_without_owner_returns_no_error (Unmarshal : string -> Obj -> Obj + Err)
    (Validate : Obj -> option Err) (repository : Repo.Repository) (resourceName jsonObject : string)
    (st : Store) (blank object : Obj) :
  New (Repo.RResources repository) resourceName = (Some blank, None) ->
  Unmarshal jsonObject blank = inl object -> Validate object = None ->
  Repo.Global (Repo.RDBScopes repository) = false ->
  Repo.UserID (Repo.RDBScopes repository) = None ->
  Repo.Create Unmarshal Validate repository resourceName jsonObject st = ((None, None), st).
Proof.
  intros HN HU HV HG HO. unfold Repo.Create.
  rewrite HN, HU, HV, HG, HO. reflexivity.
Qed.

Lemma Create_without_owner_returns_no_error_witness :
  Repo.Create keep_blank accept anonymous_order_repository "order" "{}" sample_store
    = ((None, None), sample_store).
Proof.
  apply (Create_without_owner_returns_no_error keep_blank accept anonymous_order_repository
           "order" "{}" sample_store blank_obj blank_obj); reflexivity.
Defined.

Lemma parse_uint_no_digit (c : ascii) (s : string) (n : Z) :
  digit_of c = None -> parse_uint_loop (String c s) n = ParsedSyntax.
Proof. intros H. simpl. now rewrite H. Qed.

(** [Atoi] reads a string without digits as 0. *)
Lemma Atoi_no_digits (s : string) : no_digits s = true -> Atoi s = 0.
Proof.
  intros H. destruct s as [|c s']; [reflexivity|].
  simpl in H. destruct (digit_of c) eqn:Hc; [discriminate|].
  assert (Hrest : match s' with
                  | EmptyString => True
                  | String c2 _ => digit_of c2 = None end).
  { destruct s' as [|c2 s2]; [exact I|].
    simpl in H. destruct (digit_of c2); [discriminate|reflexivity]. }
  unfold Atoi, ParseInt, ParseUint.
  destruct (_ && _)%nat.
  - destruct (Ascii.eqb c "-"%char || Ascii.eqb c "+"%char) eqn:Hs.
    + destruct s' as [|c2 s2]; [reflexivity|].
      simpl. rewrite Hrest. reflexivity.
    + simpl. rewrite Hc. reflexivity.
  - destruct (Ascii.eqb c "+"%char); [|destruct (Ascii.eqb c "-"%char)];
      try (destruct s' as [|c2 s2]; [reflexivity|]; rewrite parse_uint_no_digit by exact Hrest;
           reflexivity).
    rewrite parse_uint_no_digit by exact Hc. reflexivity.
Qed.

(** C5 (counterexample): [page_size=5], a positive value below
    [MinPageSize = 10], is kept as it is: the effective page size 5 lies
    outside [[10, 500]]. *)
Lemma getPageSize_keeps_small_values :
  getPageSize default_config page_size_5 = 5 /\
  ~ (forall query : Values,
       MinPageSize default_config <= getPageSize default_config query <= MaxPageSize default_config).
Proof.
  split; [reflexivity|].
  intros H. specialize (H page_size_5). vm_compute in H. destruct H as [H _]. now apply H.
Qed.

(** C5, as the code does it: with [n] the value [Atoi] reads from
    [page_size], the page size is [MaxPageSize] above it, [MinPageSize] for
    [n <= 0] (a missing value, a value without digits), and [n] itself in
    between, also below [MinPageSize]; for a configuration with
    [0 < MinPageSize <= MaxPageSize] it lies in [[1, MaxPageSize]]. *)
Theorem getPageSize_cases (cfg : PageConfig) (query : Values) :
  0 < MinPageSize cfg <= MaxPageSize cfg ->
  let n := Atoi (Get query "page_size") in
  (MaxPageSize cfg < n -> getPageSize cfg query = MaxPageSize cfg) /\
  (n <= 0 -> getPageSize cfg query = MinPageSize cfg) /\
  (0 < n <= MaxPageSize cfg -> getPageSize cfg query = n) /\
  (query !! "page_size" = None -> getPageSize cfg query = MinPageSize cfg) /\
  (no_digits (Get query "page_size") = true -> getPageSize cfg query = MinPageSize cfg) /\
  1 <= getPageSize cfg query <= MaxPageSize cfg.
Proof.
  intros Hcfg. cbv zeta. unfold getPageSize. cbv zeta.
  set (n := Atoi (Get query "page_size")).
  assert (Hmissing : query !! "page_size" = None -> n = 0).
  { intros Hq. unfold n, Get. rewrite Hq. reflexivity. }
  assert (Hnod : no_digits (Get query "page_size") = true -> n = 0).
  { intros Hd. apply Atoi_no_digits, Hd. }
  repeat split; try match goal with |- _ -> _ => intros Hx end;
    try pose proof (Hmissing Hx); try pose proof (Hnod Hx);
    destruct (Z.ltb_spec (MaxPageSize cfg) n), (Z.leb_spec n 0); lia.
Qed.

Lemma getPageSize_cases_witness :
  0 < MinPageSize default_config <= MaxPageSize default_config /\
  getPageSize default_config page_size_5 = 5 /\
  1 <= getPageSize default_config page_size_5 <= MaxPageSize default_config.
Proof.
  split; [simpl; lia|].
  pose proof (getPageSize_cases default_config page_size_5 ltac:(simpl; lia))
    as (_ & _ & Hmid & _ & _ & Hrange).
  split; [apply Hmid; split; vm_compute; [reflexivity|discriminate] | exact Hrange].
Defined.

(** Page and page size as the code reads them: a page that [Atoi] reads as
    non-positive is 1. *)
Lemma getPage_default (query : Values) :
  Atoi (Get query "page") <= 0 -> getPage query = 1.
Proof. intros H. unfold getPage. destruct (Z.leb_spec (Atoi (Get query "page")) 0); lia. Qed.

Lemma getPage_positive (query : Values) : 1 <= getPage query.
Proof. unfold getPage. destruct (Z.leb_spec (Atoi (Get query "page")) 0); lia. Qed.

(** The scenario [page=0&page_size=-5]. *)
Lemma page_0_page_size_minus_5 :
  let query : Values := <["page" := ["0"]]> (<["page_size" := ["-5"]]> ∅) in
  getPage query = 1 /\ getPageSize default_config query = MinPageSize default_config /\
  getOffset default_config query = 0.
Proof. vm_compute. repeat split. Qed.

Lemma wrap64_id (z : Z) : INT_MIN <= z <= INT_MAX -> wrap64 z = z.
Proof.
  unfold wrap64, INT_MIN, INT_MAX. intros H.
  destruct (Z.leb_spec 0 z).
  - rewrite Z.mod_small by lia. destruct (Z.ltb_spec z (2 ^ 63)); lia.
  - replace (z mod 2 ^ 64) with (z + 2 ^ 64).
    + destruct (Z.ltb_spec (z + 2 ^ 64) (2 ^ 63)); lia.
    + apply Z.mod_unique with (-1); lia.
Qed.

(** Below the 64-bit limit, the offset is [(page - 1) * pageSize]. *)
Lemma getOffset_no_overflow (cfg : PageConfig) (query : Values) :
  getPage query <= INT_MAX ->
  INT_MIN <= (getPage query - 1) * getPageSize cfg query <= INT_MAX ->
  getOffset cfg query = (getPage query - 1) * getPageSize cfg query.
Proof.
  intros Hp H. pose proof (getPage_positive query).
  unfold getOffset, imul, isub. rewrite (wrap64_id (getPage query - 1)).
  - now apply wrap64_id.
  - unfold INT_MIN, INT_MAX in *. lia.
Qed.

(** C7 (the defect): [page=4611686018427387905&page_size=500].  The page
    is 2^62 + 1 and the page size 500, so [(page - 1) * pageSize] is
    125 * 2^64, far beyond any table; the Go [int] product wraps to 0, and
    the repository built from these values returns the first page of rows
    instead of an empty one. *)
Theorem getOffset_wraps_to_first_page :
  getPage huge_page_query = 2 ^ 62 + 1 /\
  getPageSize default_config huge_page_query = 500 /\
  (getPage huge_page_query - 1) * getPageSize default_config huge_page_query = 125 * 2 ^ 64 /\
  getOffset default_config huge_page_query = 0 /\
  find_rows (Repo.RDB (Repo.NewRepository (getPageSize default_config huge_page_query)
                        (getPage huge_page_query) (getOffset default_config huge_page_query)
                        (Some 100) "order" root_db sample_resources []))
            (Rows sample_store)
    = Ret (Rows sample_store) /\
  Rows sample_store <> [].
Proof. vm_compute. repeat split; discriminate. Qed.

(** [page=99999999999999999999x] is not a number, yet [Atoi] stops at the
    overflow before it sees the [x]: the page is [INT_MAX], not 1. *)
Lemma getPage_overflowing_prefix :
  getPage (<["page" := ["99999999999999999999x"]]> ∅) = INT_MAX.
Proof. vm_compute. reflexivity. Qed.



(* ------------------------------------------------------------------ *)
(** ** The gate *)

Lemma length_append (p rest : string) :
  String.length (p ++ rest) = (String.length p + String.length rest)%nat.
Proof. induction p as [|c p IH]; simpl; [reflexivity | now rewrite IH]. Qed.

Lemma substring_scheme (p rest : string) :
  String.length p = 6%nat -> String.substring 0 6 (p ++ rest) = p.
Proof. intros H. six_chars p. destruct rest; reflexivity. Qed.

Lemma substring_token (p rest : string) (k : nat) :
  String.length p = 6%nat -> String.substring 7 k (p ++ rest) = String.substring 1 k rest.
Proof. intros H. six_chars p. destruct rest; reflexivity. Qed.

(** C8: a missing [Authorization] header (read as [""]) or one of at most
    six bytes, the length of the scheme [bearer], is rejected with 401 and
    the body [{"error":"unauthorized, missing bearer authorization header"}]
    (then the encoder's newline), the store untouched; a longer header is
    rejected with 401 when its first six bytes are not [bearer] in any
    case, and two headers whose schemes agree up to case are treated
    alike. *)
Theorem Protected_bearer_header (server : Server) (permission : string) (resource : Resource)
    (udb : UserDB) :
  (forall authHeader, (String.length authHeader <= 6)%nat ->
     Protected_common server permission resource authHeader udb
       = (Rejected 401 (error_body missing_header_msg), udb, []) /\
     Protected_repo server permission resource authHeader udb
       = (Rejected 401 (error_body missing_header_msg), udb, [])) /\
  error_body missing_header_msg
    = "{" ++ dq ++ "error" ++ dq ++ ":" ++ dq ++ missing_header_msg ++ dq ++ "}" ++ chr 10 /\
  (forall authHeader, (7 <= String.length authHeader)%nat ->
     ToLower (String.substring 0 6 authHeader) <> "bearer" ->
     Protected_common server permission resource authHeader udb
       = (Rejected 401 (error_body invalid_header_msg), udb, []) /\
     Protected_repo server permission resource authHeader udb
       = (Rejected 401 (error_body invalid_header_msg), udb, [])) /\
  (forall scheme1 scheme2 rest,
     String.length scheme1 = 6%nat -> String.length scheme2 = 6%nat ->
     ToLower scheme1 = ToLower scheme2 ->
     Protected_common server permission resource (scheme1 ++ rest) udb
       = Protected_common server permission resource (scheme2 ++ rest) udb /\
     Protected_repo server permission resource (scheme1 ++ rest) udb
       = Protected_repo server permission resource (scheme2 ++ rest) udb).
Proof.
  split; [|split; [|split]].
  - intros h Hl. unfold Protected_common, Protected_repo, authenticate.
    assert (Hlt : (String.length h <? 7)%nat = true) by (apply Nat.ltb_lt; lia).
    rewrite Hlt. split; reflexivity.
  - vm_compute. reflexivity.
  - intros h Hl Hs. unfold Protected_common, Protected_repo, authenticate.
    assert (Hlt : (String.length h <? 7)%nat = false) by (apply Nat.ltb_ge; lia).
    assert (Hb : String.eqb (ToLower (String.substring 0 6 h)) "bearer" = false)
      by (apply String.eqb_neq; exact Hs).
    rewrite Hlt, Hb. split; reflexivity.
  - intros p1 p2 rest H1 H2 Hlow.
    unfold Protected_common, Protected_repo, authenticate.
    rewrite !length_append, H1, H2, !substring_scheme by assumption.
    rewrite !substring_token by assumption. rewrite Hlow. split; reflexivity.
Qed.

Lemma Protected_bearer_header_witness :
  (String.length "" <= 6)%nat /\
  Protected_common customer_server READ order_resource "" empty_users
    = (Rejected 401 (error_body missing_header_msg), empty_users, []).
Proof.
  split; [simpl; lia|].
  apply (proj1 (Protected_bearer_header customer_server READ order_resource empty_users) "").
  simpl. lia.
Defined.










(* ================================================================== *)
(** * Further properties of the code *)

(** ** The registry *)

Lemma Resources_lookup_insert (rs : Resources) (n : string) (r : Resource) :
  <[n := r]> rs !! n = Some r.
Proof. unfold Resources in *. apply lookup_insert_eq. Qed.

Lemma Resources_lookup_insert_ne (rs : Resources) (n m : string) (r : Resource) :
  n <> m -> <[n := r]> rs !! m = rs !! m.
Proof. unfold Resources in *. apply lookup_insert_ne. Qed.

(** [Register] then [IsGlobal] and [New]: the name is registered with the
    given flag and type, and the other names are as before. *)
Theorem Register_lookup (resources : Resources) (name : string) (isGlobal : bool) (blank : Obj) :
  let resources' := Register resources name isGlobal blank in
  IsGlobal resources' name = isGlobal /\
  New resources' name = (Some blank, None) /\
  (forall other, other <> name ->
     IsGlobal resources' other = IsGlobal resources other /\
     New resources' other = New resources other).
Proof.
  cbv zeta. unfold IsGlobal, New, Register.
  rewrite Resources_lookup_insert. split; [reflexivity|]. split; [reflexivity|].
  intros other Hne. rewrite Resources_lookup_insert_ne by congruence. split; reflexivity.
Qed.

(** An unregistered name: [IsGlobal] answers false, [New] fails with
    [unrecognized resource name: <name>], and [GetAll] of a repository
    built for that name returns that error before touching the table. *)
Theorem unregistered_name (resources : Resources) (name : string)
    (pageSize pageNumber offset : Z) (userID : option Z) (perms : list string) (st : Store) :
  resources !! name = None ->
  IsGlobal resources name = false /\
  (exists e, New resources name = (None, Some e) /\
             Error e = ("unrecognized resource name: " ++ name)%string) /\
  Repo.GetAll (Repo.NewRepository pageSize pageNumber offset userID name root_db resources perms)
    name st = Ret (None, Some (ErrUnrecognized name)).
Proof.
  intros H. assert (HN : New resources name = (None, Some (ErrUnrecognized name))).
  { unfold New. now rewrite H. }
  split; [unfold IsGlobal; now rewrite H|]. split; [|unfold Repo.GetAll; simpl; now rewrite HN].
  exists (ErrUnrecognized name). split; [exact HN | reflexivity].
Qed.

Lemma unregistered_name_witness :
  sample_resources !! "invoice" = None /\
  Repo.GetAll (Repo.NewRepository 10 1 0 (Some 100) "invoice" root_db sample_resources [])
    "invoice" sample_store = Ret (None, Some (ErrUnrecognized "invoice")).
Proof.
  split; [reflexivity|].
  apply (unregistered_name sample_resources "invoice" 10 1 0 (Some 100) [] sample_store).
  reflexivity.
Defined.

(** [Names] lists every registered name exactly once, and nothing else. *)
Theorem Names_registered (resources : Resources) :
  NoDup (Names resources) /\
  (forall name, In name (Names resources) <-> resources !! name <> None).
Proof.
  unfold Names, Resources in *. split.
  - apply NoDup_fst_map_to_list.
  - intros name. rewrite <- list_elem_of_In, list_elem_of_fmap. split.
    + intros ([k v] & -> & Hin). simpl. apply elem_of_map_to_list in Hin. congruence.
    + intros H. destruct (resources !! name) as [v|] eqn:Hl; [|congruence].
      exists (name, v). split; [reflexivity|]. now apply elem_of_map_to_list.
Qed.

Lemma find_app {A} (f : A -> bool) (l1 l2 : list A) :
  List.find f (l1 ++ l2) = match List.find f l1 with Some x => Some x | None => List.find f l2 end.
Proof. induction l1 as [|x l1 IH]; simpl; [reflexivity|]. destruct (f x); auto. Qed.

Lemma fold_RegisterObject_lookup (objs : list ModelObject) (resources : Resources) (name : string) :
  fold_left RegisterObject objs resources !! name =
  match List.find (fun o => String.eqb (MResourceName o) name) (rev objs) with
  | Some o => Some (resource_of o)
  | None => resources !! name
  end.
Proof.
  revert resources. induction objs as [|o objs IH]; intros resources; [reflexivity|].
  simpl. rewrite IH, find_app. simpl.
  destruct (List.find _ (rev objs)); [reflexivity|].
  unfold RegisterObject, Register.
  destruct (String.eqb_spec (MResourceName o) name) as [<-|Hne].
  - now rewrite Resources_lookup_insert.
  - now rewrite Resources_lookup_insert_ne.
Qed.

(** [initResourceFactory]: under each name is the resource of the last
    object registered with that name, the built-in user object counting
    as the first; a model object named like the user resource replaces
    it, and a name no object carries is not registered. *)
Theorem initResourceFactory_last_wins (user : ModelObject) (modelObjects : list ModelObject) (name : string) :
  initResourceFactory user modelObjects !! name =
  option_map resource_of
    (List.find (fun o => String.eqb (MResourceName o) name) (rev (user :: modelObjects))).
Proof.
  unfold initResourceFactory. rewrite fold_RegisterObject_lookup. simpl.
  rewrite find_app. destruct (List.find _ (rev modelObjects)); [reflexivity|].
  simpl. unfold RegisterObject, Register.
  destruct (String.eqb_spec (MResourceName user) name) as [<-|Hne].
  - now rewrite Resources_lookup_insert.
  - now rewrite Resources_lookup_insert_ne.
Qed.

(** ** Permissions *)

Lemma havePermission_app (resource permission : string) (l1 l2 : list string) :
  havePermission resource permission (app l1 l2)
  = havePermission resource permission l1 || havePermission resource permission l2.
Proof.
  induction l1 as [|p l1 IH]; simpl; [reflexivity|].
  destruct (EqualFold p (sprintf_dot resource permission)); [reflexivity|exact IH].
Qed.

(** The permission list [Protected] builds from the roles of the token: a
    permission is granted exactly when the entry of one of the roles
    grants it; a role without entry in the table grants nothing. *)
Theorem expand_roles_grants (roleToPermissions : gmap string (list string)) (roles : list string)
    (resource permission : string) :
  havePermission resource permission (expand_roles roleToPermissions roles)
  = existsb (fun role => match roleToPermissions !! role with
                         | Some permissions => havePermission resource permission permissions
                         | None => false
                         end) roles.
Proof.
  unfold expand_roles. induction roles as [|role roles IH]; simpl; [reflexivity|].
  rewrite havePermission_app, IH. destruct (roleToPermissions !! role); reflexivity.
Qed.

Lemma ascii_lower_idem (c : ascii) : ascii_lower (ascii_lower c) = ascii_lower c.
Proof. destruct c as [[] [] [] [] [] [] [] []]; reflexivity. Qed.

Lemma EqualFold_ToLower_r (s t : string) : EqualFold s (ToLower t) = EqualFold s t.
Proof.
  revert t. induction s as [|a s IH]; intros [|b t]; simpl; try reflexivity.
  now rewrite ascii_lower_idem, IH.
Qed.

Lemma EqualFold_ToLower_l (s t : string) : EqualFold (ToLower s) t = EqualFold s t.
Proof.
  revert t. induction s as [|a s IH]; intros [|b t]; simpl; try reflexivity.
  now rewrite ascii_lower_idem, IH.
Qed.

Lemma ToLower_app (s t : string) : ToLower (s ++ t) = (ToLower s ++ ToLower t)%string.
Proof. induction s as [|a s IH]; simpl; [reflexivity|]. now rewrite IH. Qed.

Lemma ToLower_sprintf_dot (a b : string) :
  ToLower (sprintf_dot a b) = sprintf_dot (ToLower a) (ToLower b).
Proof. unfold sprintf_dot. now rewrite !ToLower_app. Qed.

(** The permission checks ignore the case of ASCII letters in the
    resource name, in the permission asked for and in the permissions
    granted. *)
Theorem permission_checks_ignore_case (resource permission : string) (permissions : list string) :
  havePermission (ToLower resource) (ToLower permission) permissions
    = havePermission resource permission permissions /\
  havePermission resource permission (List.map ToLower permissions)
    = havePermission resource permission permissions /\
  haveGlobalPermission (ToLower resource) permissions = haveGlobalPermission resource permissions /\
  haveGlobalPermission resource (List.map ToLower permissions)
    = haveGlobalPermission resource permissions.
Proof.
  assert (HG : sprintf_dot (ToLower resource) GLOBAL = ToLower (sprintf_dot resource GLOBAL)).
  { now rewrite ToLower_sprintf_dot. }
  induction permissions as [|p ps IH]; simpl; [repeat split|].
  destruct IH as (IH1 & IH2 & IH3 & IH4).
  rewrite <- ToLower_sprintf_dot, HG, !EqualFold_ToLower_r, !EqualFold_ToLower_l.
  rewrite IH1, IH2, IH3, IH4. repeat split.
Qed.

(** ** Paging parameters *)

Lemma digit_of_range (c : ascii) (d : Z) : digit_of c = Some d -> 0 <= d <= 9.
Proof.
  unfold digit_of. destruct ((48 <=? _)%nat && _)%bool eqn:H; [|discriminate].
  intros Hd. injection Hd as <-. apply andb_prop in H as [H1 H2].
  apply Nat.leb_le in H1, H2. lia.
Qed.

Lemma atoi_fast_digits_bound (s : string) (a n : Z) :
  0 <= a -> atoi_fast_digits s a = Some n ->
  0 <= n < (a + 1) * 10 ^ Z.of_nat (String.length s).
Proof.
  revert a. induction s as [|c s IH]; intros a Ha H; simpl in H.
  - injection H as <-. simpl. lia.
  - destruct (digit_of c) as [d|] eqn:Hc; [|discriminate].
    pose proof (digit_of_range c d Hc).
    specialize (IH (a * 10 + d) ltac:(lia) H).
    simpl String.length. rewrite Nat2Z.inj_succ, Z.pow_succ_r by lia.
    assert (0 <= 10 ^ Z.of_nat (String.length s)) by (apply Z.pow_nonneg; lia).
    nia.
Qed.

Lemma parse_uint_loop_bound (s : string) (n : Z) :
  0 <= n <= UINT64_MAX ->
  match parse_uint_loop s n with
  | ParsedOk m => 0 <= m <= UINT64_MAX
  | ParsedRange m => m = UINT64_MAX
  | ParsedSyntax => True
  end.
Proof.
  revert n. induction s as [|c s IH]; intros n Hn; simpl; [exact Hn|].
  destruct (digit_of c) as [d|] eqn:Hc; [|exact I].
  pose proof (digit_of_range c d Hc).
  destruct (UINT64_MAX / 10 + 1 <=? n); [reflexivity|].
  destruct (Z.ltb_spec UINT64_MAX (n * 10 + d)); [reflexivity|].
  apply IH. lia.
Qed.

Lemma ParseInt_bound (s : string) : INT_MIN <= fst (ParseInt s) <= INT_MAX.
Proof.
  unfold ParseInt, INT_MIN, INT_MAX. destruct s as [|c rest]; [simpl; lia|].
  destruct (if Ascii.eqb c "+"%char then _ else _) as [neg digits].
  assert (Hu : match ParseUint digits with
               | ParsedOk m => 0 <= m <= UINT64_MAX
               | ParsedRange m => m = UINT64_MAX
               | ParsedSyntax => True end).
  { unfold ParseUint. destruct digits; [exact I|].
    apply parse_uint_loop_bound. unfold UINT64_MAX; lia. }
  unfold UINT64_MAX in Hu.
  destruct (ParseUint digits) as [m|m|]; simpl; [| |lia];
    destruct neg; simpl;
    repeat match goal with |- context [if ?b then _ else _] => destruct b eqn:? end;
    simpl; rewrite ?Z.leb_le, ?Z.leb_gt, ?Z.ltb_lt, ?Z.ltb_ge in *; lia.
Qed.

Lemma Atoi_bound (s : string) : INT_MIN <= Atoi s <= INT_MAX.
Proof.
  unfold Atoi. destruct ((0 <? String.length s)%nat && (String.length s <? 19)%nat) eqn:Hlen;
    [|apply ParseInt_bound].
  apply andb_prop in Hlen as [_ Hlen]. apply Nat.ltb_lt in Hlen.
  destruct s as [|c rest]; [unfold INT_MIN, INT_MAX; lia|].
  set (digits := if (Ascii.eqb c "-"%char || Ascii.eqb c "+"%char)%bool then rest else String c rest).
  assert (Hd : (String.length digits <= 18)%nat).
  { unfold digits. simpl in Hlen. destruct (_ || _)%bool; simpl; lia. }
  fold digits. destruct digits as [|c' rest'] eqn:Hdig; [unfold INT_MIN, INT_MAX; lia|].
  rewrite <- Hdig in *.
  destruct (atoi_fast_digits digits 0) as [n|] eqn:Hn; [|unfold INT_MIN, INT_MAX; lia].
  pose proof (atoi_fast_digits_bound digits 0 n ltac:(lia) Hn) as Hb.
  assert (10 ^ Z.of_nat (String.length digits) <= 10 ^ 18).
  { apply Z.pow_le_mono_r; lia. }
  unfold INT_MIN, INT_MAX. destruct (Ascii.eqb c "-"%char); lia.
Qed.

(** The page [getPage] yields is a valid Go [int] of at least 1, whatever
    the query holds. *)
Theorem getPage_range (query : Values) : 1 <= getPage query <= INT_MAX.
Proof.
  unfold getPage. pose proof (Atoi_bound (Get query "page")).
  destruct (Z.leb_spec (Atoi (Get query "page")) 0); unfold INT_MAX in *; lia.
Qed.

Lemma atoi_fast_all_digits (s : string) (a : Z) :
  all_digits s = true -> atoi_fast_digits s a = Some (dec_value s a).
Proof.
  revert a. induction s as [|c s IH]; intros a H; simpl in *; [reflexivity|].
  destruct (digit_of c); [now apply IH|discriminate].
Qed.

Lemma dec_value_ge (s : string) (a : Z) : 0 <= a -> all_digits s = true -> a <= dec_value s a.
Proof.
  revert a. induction s as [|c s IH]; intros a Ha H; simpl in *; [lia|].
  destruct (digit_of c) as [d|] eqn:Hc; [|discriminate].
  pose proof (digit_of_range c d Hc). simpl.
  specialize (IH (a * 10 + d) ltac:(lia) H). lia.
Qed.

Lemma parse_uint_all_digits (s : string) (a : Z) :
  0 <= a -> all_digits s = true -> dec_value s a <= UINT64_MAX ->
  parse_uint_loop s a = ParsedOk (dec_value s a).
Proof.
  revert a. induction s as [|c s IH]; intros a Ha H Hv; simpl in *; [reflexivity|].
  destruct (digit_of c) as [d|] eqn:Hc; [|discriminate].
  pose proof (digit_of_range c d Hc). simpl in Hv.
  pose proof (dec_value_ge s (a * 10 + d) ltac:(lia) H).
  assert (Hq : UINT64_MAX = 18446744073709551615) by reflexivity.
  rewrite Hq in *. change (18446744073709551615 / 10) with 1844674407370955161.
  destruct (Z.leb_spec (1844674407370955161 + 1) a); [lia|].
  destruct (Z.ltb_spec 18446744073709551615 (a * 10 + d)); [lia|].
  simpl default. apply IH; [lia | exact H | exact Hv].
Qed.

Lemma digit_not_sign (c : ascii) (d : Z) :
  digit_of c = Some d -> Ascii.eqb c "-"%char = false /\ Ascii.eqb c "+"%char = false.
Proof.
  intros H. split.
  - destruct (Ascii.eqb_spec c "-"%char) as [->|]; [vm_compute in H; discriminate|reflexivity].
  - destruct (Ascii.eqb_spec c "+"%char) as [->|]; [vm_compute in H; discriminate|reflexivity].
Qed.

(** [Atoi] reads a decimal numeral within the range of a Go [int] as its
    value, also with leading zeros and 19 digits or more. *)
Lemma Atoi_decimal (s : string) :
  s <> EmptyString -> all_digits s = true -> dec_value s 0 <= INT_MAX ->
  Atoi s = dec_value s 0.
Proof.
  intros Hne Hd Hv. destruct s as [|c rest]; [congruence|].
  assert (Hc : exists d, digit_of c = Some d).
  { simpl in Hd. destruct (digit_of c); [eauto|discriminate]. }
  destruct Hc as [d Hc]. destruct (digit_not_sign c d Hc) as [Hm Hp].
  pose proof (dec_value_ge (String c rest) 0 ltac:(lia) Hd).
  unfold Atoi. destruct ((0 <? _)%nat && _)%bool.
  - rewrite Hm, Hp. simpl (false || false)%bool. cbv iota.
    rewrite atoi_fast_all_digits by exact Hd. reflexivity.
  - assert (HI : INT_MAX = 9223372036854775807) by reflexivity.
    assert (HU : UINT64_MAX = 18446744073709551615) by reflexivity.
    unfold ParseInt. rewrite Hp, Hm. unfold ParseUint.
    rewrite HI in Hv.
    rewrite parse_uint_all_digits by first [exact Hd | rewrite HU; lia | lia].
    change (2 ^ 63) with 9223372036854775808.
    simpl negb. destruct (Z.leb_spec 9223372036854775808 (dec_value (String c rest) 0));
      [lia|]. reflexivity.
Qed.

(** A [page] parameter written as a decimal numeral within the range of a
    Go [int] is taken as it is, 0 becoming 1. *)
Theorem getPage_decimal (query : Values) (s : string) :
  Get query "page" = s -> s <> EmptyString -> all_digits s = true -> dec_value s 0 <= INT_MAX ->
  getPage query = Z.max 1 (dec_value s 0).
Proof.
  intros Hq Hne Hd Hv. unfold getPage. rewrite Hq, Atoi_decimal by assumption.
  pose proof (dec_value_ge s 0 ltac:(lia) Hd).
  destruct (Z.leb_spec (dec_value s 0) 0); lia.
Qed.

Lemma getPage_decimal_witness :
  Get (<["page" := ["0000000000000000000042"; "7"]]> ∅) "page" = "0000000000000000000042" /\
  getPage (<["page" := ["0000000000000000000042"; "7"]]> ∅) = 42.
Proof.
  split; [reflexivity|].
  rewrite (getPage_decimal _ "0000000000000000000042"); [reflexivity|reflexivity|discriminate|reflexivity|].
  vm_compute. discriminate.
Defined.

(** With a configuration [0 < MinPageSize <= MaxPageSize] and a page
    small enough for [page * MaxPageSize] to be a Go [int], the offset is
    [(page - 1) * pageSize]: non-negative and a whole number of pages. *)
Theorem getOffset_in_range (cfg : PageConfig) (query : Values) :
  0 < MinPageSize cfg <= MaxPageSize cfg ->
  getPage query * MaxPageSize cfg <= INT_MAX ->
  getOffset cfg query = (getPage query - 1) * getPageSize cfg query /\
  0 <= getOffset cfg query.
Proof.
  intros Hcfg Hp.
  pose proof (getPage_range query) as Hpage.
  assert (Hsize : 1 <= getPageSize cfg query <= MaxPageSize cfg).
  { unfold getPageSize.
    destruct (Z.ltb_spec (MaxPageSize cfg) (Atoi (Get query "page_size"))); [lia|].
    destruct (Z.leb_spec (Atoi (Get query "page_size")) 0); lia. }
  assert (Hprod : 0 <= (getPage query - 1) * getPageSize cfg query <= INT_MAX).
  { split; [nia|]. nia. }
  rewrite getOffset_no_overflow; [| lia | unfold INT_MIN, INT_MAX in *; lia].
  split; [reflexivity | lia].
Qed.

Lemma getOffset_in_range_witness :
  getOffset default_config page_3_of_20 = 40.
Proof.
  destruct (getOffset_in_range default_config page_3_of_20) as [H _];
    [simpl; lia | vm_compute; discriminate | ].
  rewrite H. vm_compute. reflexivity.
Defined.

(** ** The repository *)

(** The rows a repository of [NewRepository] sees through its WHERE
    conditions and through its page window. *)
Lemma NewRepository_rows (pageSize pageNumber offset : Z) (userID : option Z)
    (resourceName : string) (resources : Resources) (permissions : list string) (tbl : list Obj) :
  let db := Repo.RDB (Repo.NewRepository pageSize pageNumber offset userID resourceName
                        root_db resources permissions) in
  let visible := if IsGlobal resources resourceName || haveGlobalPermission resourceName permissions
                 then tbl else List.filter (owned_by userID) tbl in
  where_rows db tbl = Ret visible /\ find_rows db tbl = Ret (window offset (Some pageSize) visible).
Proof.
  cbv zeta. unfold Repo.NewRepository.
  destruct (IsGlobal resources resourceName), (haveGlobalPermission resourceName permissions);
    simpl; unfold where_rows, find_rows, build, matching; simpl;
    rewrite ?filter_owned, ?filter_all_true; auto.
Qed.

(** [GetAll] on a registered resource: the count is that of all the rows
    the caller may see, not of the page; the data is the page window of
    the same rows (the offset skipped, then at most [pageSize] rows); the
    page size and number are those of the scopes. *)
Theorem GetAll_counts_all_visible_rows (pageSize pageNumber offset : Z) (userID : option Z)
    (resourceName : string) (resources : Resources) (permissions : list string)
    (r : Resource) (st : Store) :
  resources !! resourceName = Some r -> 0 <= offset -> 0 <= pageSize ->
  let visible := if IsGlobal resources resourceName || haveGlobalPermission resourceName permissions
                 then Rows st else List.filter (owned_by userID) (Rows st) in
  Repo.GetAll (Repo.NewRepository pageSize pageNumber offset userID resourceName root_db
                 resources permissions) resourceName st
  = Ret (Some {| LCount := Z.of_nat (length visible); LPageSize := pageSize; LPage := pageNumber;
                 LData := firstn (Z.to_nat pageSize) (skipn (Z.to_nat offset) visible) |}, None).
Proof.
  intros Hr Hoff Hps. cbv zeta.
  destruct (NewRepository_rows pageSize pageNumber offset userID resourceName resources
              permissions (Rows st)) as [Hw Hf].
  assert (HN : New (Repo.RResources (Repo.NewRepository pageSize pageNumber offset userID
                      resourceName root_db resources permissions)) resourceName
               = (Some (ResType r), None)).
  { unfold New. simpl. rewrite Hr. reflexivity. }
  unfold Repo.GetAll, Count, FindAll. rewrite HN, Hw, Hf. simpl. unfold window.
  destruct (Z.ltb_spec 0 offset); destruct (Z.leb_spec 0 pageSize); try lia; [reflexivity|].
  replace offset with 0 by lia. reflexivity.
Qed.

(** Page 2 of size 1 for the owner 100 of two of three orders: the count is
    2, the page holds the second of them. *)
Lemma GetAll_counts_all_visible_rows_witness :
  Repo.GetAll (Repo.NewRepository 1 2 1 (Some 100) "order" root_db sample_resources []) "order"
    two_owner_store
  = Ret (Some {| LCount := 2; LPageSize := 1; LPage := 2;
                 LData := [{| ID := 3; UserID := Some 100; Payload := "c" |}] |}, None).
Proof.
  pose proof (GetAll_counts_all_visible_rows 1 2 1 (Some 100) "order" sample_resources []
                order_resource two_owner_store ltac:(reflexivity) ltac:(lia) ltac:(lia)) as H.
  cbv zeta in H. rewrite H. reflexivity.
Defined.




Lemma find_none_of {A} (f : A -> bool) (l : list A) :
  (forall x, In x l -> f x = false) -> List.find f l = None.
Proof.
  induction l as [|x l IH]; intros H; simpl; [reflexivity|].
  rewrite (H x (or_introl eq_refl)). apply IH. intros y Hy. apply H. right. exact Hy.
Qed.

(** A [Delete] that succeeds removes every row with the identifier and
    keeps the others; a [Get] of the identifier through the same
    repository then reports [record not found]. *)
Theorem Delete_then_Get (repository : Repo.Repository) (resourceName : string) (uid : Z)
    (st st' : Store) :
  Repo.Delete repository resourceName uid st = Ret (None, st') ->
  Rows st' = List.filter (fun o => negb (Z.eqb (ID o) uid)) (Rows st) /\
  Repo.Get repository resourceName uid st' = Ret (None, Some ErrRecordNotFound).
Proof.
  intros H. unfold Repo.Delete in H.
  destruct (New (Repo.RResources repository) resourceName) as [[object|] [err|]] eqn:HN.
  - discriminate.
  - unfold FindByID, where_rows in H.
    destruct (build (Repo.RDB repository)) as [q|msg] eqn:Hb; cbn [go_bind] in H; [|discriminate].
    destruct (List.find (fun r => Z.eqb (ID r) uid) (matching q (Rows st))) as [found|] eqn:Hf;
      cbn [go_bind] in H; [|discriminate].
    unfold DeleteRow in H. destruct (WriteFailure st) as [e|] eqn:Hwf; [discriminate|].
    injection H as <-.
    apply List.find_some in Hf as [_ Hid]. apply Z.eqb_eq in Hid.
    split; [simpl; rewrite Hid; reflexivity|].
    unfold Repo.Get. rewrite HN. unfold FindByID, where_rows. rewrite Hb. cbn [go_bind].
    rewrite find_none_of; [reflexivity|].
    intros x Hx. unfold matching in Hx. apply filter_In in Hx as [Hx _].
    simpl in Hx. apply filter_In in Hx as [_ Hx]. rewrite Hid in Hx.
    destruct (Z.eqb (ID x) uid); [discriminate|reflexivity].
  - discriminate.
  - exfalso. unfold New in HN. destruct (_ !! _); discriminate.
Qed.

(** The owner deletes its order 1; reading it again reports not found. *)
Lemma Delete_then_Get_witness :
  Repo.Get owner_order_repository "order" 1 (set_rows sample_store [])
  = Ret (None, Some ErrRecordNotFound).
Proof.
  exact (proj2 (Delete_then_Get owner_order_repository "order" 1 sample_store
                  (set_rows sample_store []) ltac:(reflexivity))).
Defined.

(** ** The request-scoped repository *)

Lemma Ctx_lookup_insert_ne (c : Repo.Ctx) (n m : string) (v : Repo.CtxValue) :
  n <> m -> <[n := v]> c !! m = c !! m.
Proof. unfold Repo.Ctx in *. apply lookup_insert_ne. Qed.

(** After the gate of package [repo] forwards a request that carried no
    permission list, the repository [NewRepositoryFromRequest] builds from
    it has no permissions and filters a non-global resource to the
    caller's own rows, whatever permissions the caller's roles grant: the
    gate checks them but does not store them in the request. *)
Theorem repo_gate_drops_permissions (FromString : string -> option Z) (UUIDString : Z -> string)
    (cfg : PageConfig) (server : Server) (permission : string) (resource : Resource)
    (authHeader : string) (udb : UserDB) (r r' : Repo.Request) (resources : Resources)
    (tbl : list Obj) :
  Repo.RCtx r !! Repo.CURRENT_USER_PERMISSIONS = None ->
  Protected_repo_next UUIDString server permission resource authHeader udb r = Some r' ->
  IsGlobal resources (Name resource) = false ->
  let repository := Repo.NewRepositoryFromRequest FromString cfg r' root_db (Name resource) resources in
  Repo.getCurrentUserPermissions r' = [] /\
  where_rows (Repo.RDB repository) tbl
    = Ret (List.filter (owned_by (Repo.getCurrentUserID FromString r')) tbl).
Proof.
  intros Hnone Hnext Hg. cbv zeta.
  assert (Hp : Repo.getCurrentUserPermissions r' = []).
  { unfold Protected_repo_next in Hnext.
    destruct (authenticate server authHeader udb) as [[[out|[loadedUser permissions]] udb'] evs];
      [discriminate|].
    destruct (havePermission (Name resource) permission permissions); [|discriminate].
    injection Hnext as <-. unfold Repo.getCurrentUserPermissions. simpl.
    rewrite Ctx_lookup_insert_ne by discriminate. rewrite Hnone. reflexivity. }
  split; [exact Hp|].
  unfold Repo.NewRepositoryFromRequest, Repo.NewRepository. cbv zeta. rewrite Hg, Hp. simpl.
  unfold where_rows, build, matching. simpl. rewrite filter_owned. reflexivity.
Qed.

(** The user 7, whose role grants [order.global], passes the gate for
    [order.read]; the repository of the forwarded request still shows it
    only its own orders (none of the three). *)
Lemma repo_gate_drops_permissions_witness :
  haveGlobalPermission "order" (expand_roles (RoleToPermissions global_customer_server) ["Customer"])
    = true /\
  where_rows (Repo.RDB (Repo.NewRepositoryFromRequest uuid_parse default_config
      {| Repo.RQuery := ∅; Repo.RCtx := <[Repo.CURRENT_USER_ID := Repo.CtxString "7"]> ∅ |}
      root_db "order" sample_resources)) (Rows two_owner_store) = Ret [].
Proof.
  split; [reflexivity|].
  destruct (repo_gate_drops_permissions uuid_parse uuid_text default_config global_customer_server
              READ order_resource "Bearer tok" empty_users plain_request
              {| Repo.RQuery := ∅; Repo.RCtx := <[Repo.CURRENT_USER_ID := Repo.CtxString "7"]> ∅ |}
              sample_resources (Rows two_owner_store) ltac:(reflexivity) ltac:(reflexivity)
              ltac:(reflexivity)) as [_ H].
  etransitivity; [exact H|]. reflexivity.
Defined.

(** A request whose context holds no user identifier, an empty one, or a
    text that is not a UUID, on a non-global resource and without the
    global permission: [GetAll] lists nothing (count 0, the page size and
    number of the query) and [Get] reports [record not found]. *)
Theorem request_without_identity_sees_nothing (FromString : string -> option Z) (cfg : PageConfig)
    (request : Repo.Request) (resourceName : string) (resources : Resources) (r : Resource)
    (st : Store) :
  (forall s, Repo.RCtx request !! Repo.CURRENT_USER_ID = Some (Repo.CtxString s) ->
             s = "" \/ FromString s = None) ->
  resources !! resourceName = Some r -> IsGlobalRes r = false ->
  haveGlobalPermission resourceName (Repo.getCurrentUserPermissions request) = false ->
  let repository := Repo.NewRepositoryFromRequest FromString cfg request root_db resourceName resources in
  Repo.GetAll repository resourceName st
    = Ret (Some {| LCount := 0; LPageSize := getPageSize cfg (Repo.RQuery request);
                   LPage := getPage (Repo.RQuery request); LData := [] |}, None) /\
  (forall uid, Repo.Get repository resourceName uid st = Ret (None, Some ErrRecordNotFound)).
Proof.
  intros Hid Hr Hg Hp. cbv zeta.
  assert (Hu : Repo.getCurrentUserID FromString request = None).
  { unfold Repo.getCurrentUserID.
    destruct (Repo.RCtx request !! Repo.CURRENT_USER_ID) as [[|s|l|]|] eqn:E; try reflexivity.
    destruct (Hid s eq_refl) as [->|Hs]; [reflexivity|].
    destruct (String.eqb s ""); [reflexivity|exact Hs]. }
  unfold Repo.NewRepositoryFromRequest, Repo.NewDBScopesFromRequest. cbv zeta.
  cbn [Repo.PageSize Repo.Page Repo.Offset Repo.UserID]. rewrite Hu.
  exact (repo_anonymous_sees_nothing _ _ _ resourceName resources r _ st Hr Hg Hp).
Qed.

(** A user identifier that is not a UUID text, on page 3 of size 20. *)
Lemma request_without_identity_sees_nothing_witness :
  Repo.GetAll (Repo.NewRepositoryFromRequest uuid_parse default_config
                 {| Repo.RQuery := page_3_of_20;
                    Repo.RCtx := <[Repo.CURRENT_USER_ID := Repo.CtxString "not a uuid"]> ∅ |}
                 root_db "order" sample_resources) "order" two_owner_store
  = Ret (Some {| LCount := 0; LPageSize := 20; LPage := 3; LData := [] |}, None).
Proof.
  assert (Hid : forall s, Repo.RCtx {| Repo.RQuery := page_3_of_20;
                    Repo.RCtx := <[Repo.CURRENT_USER_ID := Repo.CtxString "not a uuid"]> ∅ |}
                  !! Repo.CURRENT_USER_ID = Some (Repo.CtxString s) ->
                  s = "" \/ uuid_parse s = None).
  { intros s Hs. right. vm_compute in Hs. injection Hs as <-. reflexivity. }
  destruct (request_without_identity_sees_nothing uuid_parse default_config _ "order"
              sample_resources order_resource two_owner_store Hid ltac:(reflexivity)
              ltac:(reflexivity) ltac:(reflexivity)) as [H _].
  etransitivity; [exact H|]. reflexivity.
Defined.

(** ** [ERROR] *)

Lemma str_app_assoc (s t u : string) : ((s ++ t) ++ u = s ++ (t ++ u))%string.
Proof. induction s as [|c s IH]; [reflexivity|]. exact (f_equal (String c) IH). Qed.




(** ** The router *)

Lemma str_app_nil_r (s : string) : (s ++ "")%string = s.
Proof. induction s as [|c s IH]; [reflexivity|]. exact (f_equal (String c) IH). Qed.

Lemma has_slash_app (s t : string) : has_slash (s ++ t) = has_slash s || has_slash t.
Proof.
  induction s as [|c s IH]; [reflexivity|].
  change (has_slash (String c s ++ t)) with (Ascii.eqb c "/"%char || has_slash (s ++ t)).
  rewrite IH. apply orb_assoc.
Qed.

Lemma has_slash_mid (x y : string) : has_slash (x ++ "/" ++ y) = true.
Proof. rewrite has_slash_app. apply orb_true_r. Qed.

Lemma eqb_slash_diff (x y : string) : has_slash x <> has_slash y -> String.eqb x y = false.
Proof. intros H. destruct (String.eqb_spec x y) as [->|]; [congruence|reflexivity]. Qed.

Lemma eqb_app_cancel (s t u : string) : String.eqb (s ++ t) (s ++ u) = String.eqb t u.
Proof.
  induction s as [|c s IH]; [reflexivity|].
  change (String.eqb (String c s ++ t) (String c s ++ u))
    with (Ascii.eqb c c && String.eqb (s ++ t) (s ++ u)).
  rewrite Ascii.eqb_refl. exact IH.
Qed.


Lemma strip_prefix_app_cancel (s t u : string) : strip_prefix (s ++ t) (s ++ u) = strip_prefix t u.
Proof.
  induction s as [|c s IH]; [reflexivity|].
  change (strip_prefix (String c s ++ t) (String c s ++ u))
    with (if Ascii.eqb c c then strip_prefix (s ++ t) (s ++ u) else None).
  rewrite Ascii.eqb_refl. exact IH.
Qed.

Lemma strip_prefix_some (p s r : string) : strip_prefix p s = Some r -> s = (p ++ r)%string.
Proof.
  revert s. induction p as [|a p IH]; intros s H.
  - injection H as <-. reflexivity.
  - destruct s as [|b s]; [discriminate|].
    change (strip_prefix (String a p) (String b s)) with (if Ascii.eqb a b then strip_prefix p s else None) in H.
    destruct (Ascii.eqb_spec a b) as [<-|]; [|discriminate].
    rewrite (IH s H). reflexivity.
Qed.


Lemma strip_prefix_slash_none (x tail : string) :
  has_slash tail = false -> strip_prefix (x ++ "/") tail = None.
Proof.
  intros H. destruct (strip_prefix (x ++ "/") tail) as [seg|] eqn:E; [|reflexivity].
  apply strip_prefix_some in E. rewrite E, str_app_assoc, has_slash_mid in H. discriminate.
Qed.



Lemma path_matches_MPath (p s : string) : path_matches (MPath p) s = String.eqb p s.
Proof. reflexivity. Qed.

Lemma path_matches_MPathID (p s : string) :
  path_matches (MPathID p) s
  = match strip_prefix p s with
    | Some seg => negb (String.eqb seg "") && negb (has_slash seg)
    | None => false
    end.
Proof. reflexivity. Qed.

Lemma path_matches_MPrefix (p s : string) : path_matches (MPrefix p) s = String.prefix p s.
Proof. reflexivity. Qed.

Lemma dispatch_from_app (l1 l2 : list Route) (method path : string) (mismatch : bool) :
  dispatch_from (app l1 l2) method path mismatch =
  match dispatch_from l1 method path mismatch with
  | Dispatched h => Dispatched h
  | MethodNotAllowed => dispatch_from l2 method path true
  | NotFound => dispatch_from l2 method path false
  end.
Proof.
  revert mismatch. induction l1 as [|r l1 IH]; intros mismatch; simpl.
  - destruct mismatch; reflexivity.
  - destruct (path_matches (RMatcher r) path); [destruct (method_matches (RMethods r) method)|]; auto.
Qed.

Lemma dispatch_from_skip (l rest : list Route) (method path : string) (mismatch : bool) :
  (forall r, In r l -> path_matches (RMatcher r) path = false) ->
  dispatch_from (app l rest) method path mismatch = dispatch_from rest method path mismatch.
Proof.
  revert mismatch. induction l as [|r l IH]; intros mismatch H; simpl; [reflexivity|].
  rewrite (H r (or_introl eq_refl)). apply IH. intros r' Hr'. apply H. right. exact Hr'.
Qed.

Lemma dispatch_from_handler (l : list Route) (method path : string) (mismatch : bool) (h : Handler) :
  dispatch_from l method path mismatch = Dispatched h -> exists r, In r l /\ RHandler r = h.
Proof.
  revert mismatch. induction l as [|r l IH]; intros mismatch H; simpl in H.
  - destruct mismatch; discriminate.
  - destruct (path_matches (RMatcher r) path); [destruct (method_matches (RMethods r) method)|].
    + injection H as <-. exists r. split; [left|]; reflexivity.
    + destruct (IH _ H) as [r' [Hin Hh]]. exists r'. split; [right|]; assumption.
    + destruct (IH _ H) as [r' [Hin Hh]]. exists r'. split; [right|]; assumption.
Qed.

Lemma dispatch_from_no_method (l : list Route) (method path : string) (mismatch : bool) (h : Handler) :
  (forall r, In r l -> method_matches (RMethods r) method = false) ->
  dispatch_from l method path mismatch <> Dispatched h.
Proof.
  revert mismatch. induction l as [|r l IH]; intros mismatch H; simpl.
  - destruct mismatch; discriminate.
  - rewrite (H r (or_introl eq_refl)).
    assert (H' : forall r', In r' l -> method_matches (RMethods r') method = false)
      by (intros r' Hr'; apply H; right; exact Hr').
    destruct (path_matches (RMatcher r) path); apply IH; exact H'.
Qed.

Lemma method_matches_one (m method : string) :
  method <> m -> method_matches (Some [m]) method = false.
Proof.
  intros H. change (String.eqb method m || false = false).
  rewrite orb_false_r. apply String.eqb_neq. exact H.
Qed.

Lemma resource_route_in (APIPath : string) (rs : list Resource) (route : Route) :
  In route (List.concat (List.map (routes_of_resource APIPath) rs)) ->
  exists res, In res rs /\ In route (routes_of_resource APIPath res).
Proof.
  intros H. apply in_concat in H as [l [Hl Hr]].
  apply in_map_iff in Hl as [res [<- Hres]]. eauto.
Qed.

Lemma resource_route_shape (APIPath : string) (res : Resource) (route : Route) :
  In route (routes_of_resource APIPath res) ->
  (exists p o, RHandler route = HProtected p (Name res) o) /\
  (exists m, RMethods route = Some [m] /\ In m [MethodGet; MethodPost; MethodPut; MethodDelete]).
Proof.
  intros H. unfold routes_of_resource in H. cbv zeta in H. cbn [In] in H.
  destruct H as [<-|[<-|[<-|[<-|[<-|[]]]]]]; cbn [RHandler RMethods];
    (split; [do 2 eexists; reflexivity|]); eexists; (split; [reflexivity|]); simpl; tauto.
Qed.

(** A resource route never matches a path [/] followed by text without
    [/]. *)
Lemma resource_route_flat (APIPath : string) (res : Resource) (route : Route) (tail : string) :
  has_slash tail = false -> In route (routes_of_resource APIPath res) ->
  path_matches (RMatcher route) ("/" ++ tail) = false.
Proof.
  intros Ht H. unfold routes_of_resource in H. cbv zeta in H. cbn [In] in H.
  destruct H as [<-|[<-|[<-|[<-|[<-|[]]]]]]; cbn [RMatcher];
    first
      [ rewrite path_matches_MPath, eqb_app_cancel; apply eqb_slash_diff;
        rewrite has_slash_mid, Ht; discriminate
      | rewrite path_matches_MPathID, str_app_assoc, strip_prefix_app_cancel,
          strip_prefix_slash_none by exact Ht; reflexivity ].
Qed.

Lemma home_route_flat (APIPath tail : string) :
  has_slash tail = false -> path_matches (MPath ("/" ++ APIPath ++ "/")) ("/" ++ tail) = false.
Proof.
  intros Ht. rewrite path_matches_MPath, eqb_app_cancel. apply eqb_slash_diff.
  rewrite has_slash_app, orb_true_r, Ht. discriminate.
Qed.

(** The two routes [initRouter] registers after the resources. *)
Lemma static_routes (method path : string) (mismatch : bool) :
  let tail := [ {| RMatcher := MPrefix "/"; RMethods := None; RHandler := HStatic |};
                {| RMatcher := MPath "/healthz"; RMethods := Some [MethodGet]; RHandler := HHealth |} ] in
  (String.prefix "/" path = true -> dispatch_from tail method path mismatch = Dispatched HStatic) /\
  dispatch_from tail method path mismatch <> Dispatched HHealth.
Proof.
  cbv zeta. cbn [dispatch_from RMatcher RMethods RHandler].
  rewrite path_matches_MPrefix, path_matches_MPath.
  destruct (String.prefix "/" path) eqn:Ep.
  - split; [reflexivity|]. discriminate.
  - split; [discriminate|].
    destruct (String.eqb_spec "/healthz" path) as [<-|_]; [discriminate Ep|].
    destruct mismatch; discriminate.
Qed.

(** The health route of [initRouter] is never served: [PathPrefix("/")] is
    registered before it and takes every path, [/healthz] included, so
    [GET /healthz] is answered by the static file handler whatever the API
    path and the resources. *)
Theorem initRouter_healthz_shadowed (APIPath : string) (resources : list Resource) :
  dispatch (initRouter APIPath resources) MethodGet "/healthz" = Dispatched HStatic /\
  (forall method path, dispatch (initRouter APIPath resources) method path <> Dispatched HHealth).
Proof.
  split.
  - unfold dispatch, initRouter. change "/healthz" with ("/" ++ "healthz")%string.
    cbn [dispatch_from RMatcher RMethods RHandler].
    rewrite home_route_flat by reflexivity. cbv beta iota.
    rewrite dispatch_from_skip.
    + apply (proj1 (static_routes _ _ false)). reflexivity.
    + intros route Hr. apply resource_route_in in Hr as [res [_ Hr]].
      exact (resource_route_flat APIPath res route "healthz" eq_refl Hr).
  - intros method path. unfold dispatch, initRouter. rewrite app_comm_cons, dispatch_from_app.
    destruct (dispatch_from (_ :: _) method path false) as [h| |] eqn:E.
    + intros Hh. injection Hh as ->.
      apply dispatch_from_handler in E as [route [Hin Hh]].
      destruct Hin as [<-|Hin]; [discriminate Hh|].
      apply resource_route_in in Hin as [res [_ Hin]].
      destruct (resource_route_shape APIPath res route Hin) as [[p [o Ho]] _]. congruence.
    + apply static_routes.
    + apply static_routes.
Qed.

(** Every path that starts with [/] is served by some handler of
    [initRouter]: the router never answers 404 or 405, and a request with
    a method other than GET, POST, PUT and DELETE goes to the static file
    handler, also on the paths of the resources. *)
Theorem initRouter_catch_all (APIPath : string) (resources : list Resource) (method path : string) :
  String.prefix "/" path = true ->
  (exists h, dispatch (initRouter APIPath resources) method path = Dispatched h) /\
  (~ In method [MethodGet; MethodPost; MethodPut; MethodDelete] ->
   dispatch (initRouter APIPath resources) method path = Dispatched HStatic).
Proof.
  intros Hp. unfold dispatch, initRouter. rewrite app_comm_cons, dispatch_from_app.
  pose proof (fun b => proj1 (static_routes method path b) Hp) as HS. cbv zeta in HS.
  split.
  - destruct (dispatch_from (_ :: _) method path false) as [h| |]; [exists h; reflexivity| |];
      eexists; apply HS.
  - intros Hm.
    destruct (dispatch_from (_ :: _) method path false) as [h| |] eqn:E; [|apply HS|apply HS].
    exfalso. revert E. apply dispatch_from_no_method.
    intros route [<-|Hin].
    + apply method_matches_one. intros ->. apply Hm. left. reflexivity.
    + apply resource_route_in in Hin as [res [_ Hin]].
      destruct (resource_route_shape APIPath res route Hin) as [_ [m [Hrm Hin']]].
      rewrite Hrm. apply method_matches_one. intros ->. exact (Hm Hin').
Qed.






Lemma initRouter_catch_all_witness :
  dispatch (initRouter "api" [order_resource]) "PATCH" "/api/order/42" = Dispatched HStatic.
Proof.
  apply (proj2 (initRouter_catch_all "api" [order_resource] "PATCH" "/api/order/42" eq_refl)).
  cbn [In]. unfold MethodGet, MethodPost, MethodPut, MethodDelete.
  intros [H|[H|[H|[H|[]]]]]; discriminate H.
Defined.
